(** * Contract PDF builder: layout engine, section model and assembler

    Shallow embedding of [contractPdfBuilder.ts] (class [ContractPdfBuilder]),
    of the postback, status and address functions of [signhostService.ts]
    (class [SignhostService]) and of the demonstration script that calls
    both ([main], [checkTransactionStatus]).

    Conventions of the model:
    - a JavaScript [number] used as a coordinate is a rational [Q]; the
      arithmetic is exact, binary64 rounding is not modelled;
    - [paymentAmount] is a [JsNumber]: a finite rational, a negative zero,
      an infinity or NaN;
    - a JavaScript string is a [string] of bytes (UTF-8), so the euro sign
      takes three bytes;
    - the canvas (pdfkit's [PDFDocument]) is an explicit [Doc] value
      threaded through every drawing step; the calls that draw are logged
      in [ops] with the graphics state they are drawn in. What pdfkit
      computes on its own (line heights, the height of a wrapped
      paragraph) is a parameter, a [Canvas];
    - what the document signals during a build (chunks, end, error) and
      the exception a drawing call may throw are a parameter too, a [Run];
      [build] is the promise that the listeners and the [try] block make
      of it;
    - the body of a postback is a [JsValue], a value parsed from JSON;
      the SHA-1 digest and the text of a number are parameters, a
      [Platform]; a call that may throw returns an [Outcome];
    - the script is a value of [Demo.M]: the calls it makes to the file
      system, the service, the timer and the process, in order, and where
      it leaves the control; what the file system and the service answer
      is a parameter, a [Demo.World]. *)

From Stdlib Require Import ZArith NArith QArith Qround Qabs.
From Stdlib Require Import String Ascii List Bool Lia Lqa DecimalPos DecimalN.
Import ListNotations.

Local Close Scope Q_scope.
Local Open Scope nat_scope.
Local Open Scope list_scope.
Local Open Scope string_scope.

(* ====================================================================== *)
(** * Strings *)
(* ====================================================================== *)

Module Str.

(** The double quote character, for the template text that quotes. *)
Definition dq : string := String (ascii_of_nat 34) EmptyString.

(** Number of positions of [s] at which [tok] starts. *)
Fixpoint occurrences (tok s : string) : nat :=
  match s with
  | EmptyString => if prefix tok EmptyString then 1 else 0
  | String _ s' => (if prefix tok s then 1 else 0) + occurrences tok s'
  end.

Fixpoint has_char (c : ascii) (s : string) : bool :=
  match s with
  | EmptyString => false
  | String a s' => Ascii.eqb a c || has_char c s'
  end.

Fixpoint ends_with (c : ascii) (s : string) : bool :=
  match s with
  | EmptyString => false
  | String a EmptyString => Ascii.eqb a c
  | String _ s' => ends_with c s'
  end.

Definition starts_with (c : ascii) (s : string) : bool :=
  match s with
  | EmptyString => false
  | String a _ => Ascii.eqb a c
  end.

(** JavaScript's [toUpperCase] on the ASCII letters. *)
Definition upper_char (c : ascii) : ascii :=
  let n := nat_of_ascii c in
  if andb (Nat.leb 97 n) (Nat.leb n 122) then ascii_of_nat (n - 32) else c.

Fixpoint toUpperCase (s : string) : string :=
  match s with
  | EmptyString => EmptyString
  | String c s' => String (upper_char c) (toUpperCase s')
  end.


End Str.

(* ====================================================================== *)
(** * JavaScript numbers and their string conversions *)
(* ====================================================================== *)

Module JsNum.

(** The values of the type [number] that the formatting tells apart. *)
Inductive JsNumber : Type :=
| JsNaN
| JsInf (negative : bool)
| JsNegZero
| JsFin (q : Q).

(** Two numbers are the same value. *)
Definition num_eq (a b : JsNumber) : Prop :=
  match a, b with
  | JsFin p, JsFin q => (p == q)%Q
  | _, _ => a = b
  end.

Definition is_digit (c : ascii) : bool :=
  Nat.leb 48 (nat_of_ascii c) && Nat.leb (nat_of_ascii c) 57.

Definition digit (k : N) : ascii :=
  match k with
  | 0 => "0" | 1 => "1" | 2 => "2" | 3 => "3" | 4 => "4"
  | 5 => "5" | 6 => "6" | 7 => "7" | 8 => "8" | _ => "9"
  end%N%char.

Fixpoint uint_digits (u : Decimal.uint) : list ascii :=
  match u with
  | Decimal.Nil => []
  | Decimal.D0 u => "0" :: uint_digits u
  | Decimal.D1 u => "1" :: uint_digits u
  | Decimal.D2 u => "2" :: uint_digits u
  | Decimal.D3 u => "3" :: uint_digits u
  | Decimal.D4 u => "4" :: uint_digits u
  | Decimal.D5 u => "5" :: uint_digits u
  | Decimal.D6 u => "6" :: uint_digits u
  | Decimal.D7 u => "7" :: uint_digits u
  | Decimal.D8 u => "8" :: uint_digits u
  | Decimal.D9 u => "9" :: uint_digits u
  end%char.

(** [String(n)] for a counter [n]: its decimal digits. *)
Definition natToString (n : nat) : string :=
  string_of_list_ascii (uint_digits (Nat.to_uint n)).

(** ** [toLocaleString("nl-NL", { minimumFractionDigits: 2 })]

    The number is rounded to at most three fraction digits (the default
    maximum of the decimal style, ties away from zero), printed with at
    least two of them, the integer digits in groups of three separated
    by [.], and [,] before the fraction. *)

(** The magnitude in thousandths, rounded half away from zero. *)
Definition thousandths (q : Q) : N :=
  Z.to_N (Qfloor (Qabs q * 1000 + (1 # 2))%Q).

(** Separators after every third digit, on digits given lowest first. *)
Fixpoint group3 (ds : list ascii) : list ascii :=
  match ds with
  | a :: b :: c :: ((_ :: _) as rest) => a :: b :: c :: "."%char :: group3 rest
  | _ => ds
  end.

Definition integerDigits (n : N) : list ascii :=
  rev (group3 (rev (uint_digits (N.to_uint n)))).

Definition fractionDigits (f : N) : list ascii :=
  digit (f / 100) :: digit ((f / 10) mod 10)
    :: (if (f mod 10 =? 0)%N then [] else [digit (f mod 10)]).

Definition formatThousandths (n : N) : list ascii :=
  (integerDigits (n / 1000) ++ ","%char :: fractionDigits (n mod 1000))%list.

Definition toLocaleString (x : JsNumber) : string :=
  match x with
  | JsNaN => "NaN"
  | JsInf false => "∞"
  | JsInf true => "-∞"
  | JsNegZero => "-0,00"
  | JsFin q =>
      string_of_list_ascii
        ((if (Qnum q <? 0)%Z then ["-"%char] else [])
           ++ formatThousandths (thousandths q))%list
  end.



Definition digitsOnly (l : list ascii) : Prop :=
  Forall (fun c => is_digit c = true) l.

(** The characters of a formatted finite magnitude. *)
Definition plain (c : ascii) : bool :=
  is_digit c || Ascii.eqb c "." || Ascii.eqb c "," || Ascii.eqb c "-".

End JsNum.

Import Str JsNum.

(* ====================================================================== *)
(** * Types *)
(* ====================================================================== *)

Record ContractData : Type := {
  clientName : string;
  clientAddress : string;
  clientCity : string;
  clientEmail : string;
  providerName : string;
  providerAddress : string;
  providerCity : string;
  contractNumber : string;
  effectiveDate : string;
  projectDescription : string;
  paymentAmount : JsNumber;
  paymentTerms : string
}.

Record ContractSection : Type := {
  title : string;
  items : list string
}.

Inductive PageSize : Type := A4 | LETTER.

(** [PdfOptions]: every field may be left out by the caller. *)
Record PdfOptions : Type := {
  includeSignatureMarkers' : option bool;
  margin' : option Q;
  pageSize' : option PageSize
}.

(** [Required<PdfOptions>]: the options once the defaults are filled in. *)
Record Options : Type := {
  includeSignatureMarkers : bool;
  margin : Q;
  pageSize : PageSize
}.

(** The nullish coalescing operator [??]. *)
Definition orDefault {A : Type} (o : option A) (d : A) : A :=
  match o with
  | Some v => v
  | None => d
  end.

(* ====================================================================== *)
(** * The canvas *)
(* ====================================================================== *)

Module Margins.
Record t : Type := { top : Q; bottom : Q; left : Q; right : Q }.
End Margins.

Record Page : Type := {
  width : Q;
  height : Q;
  margins : Margins.t
}.

(** The options object of a [text] call. *)
Record TextOptions : Type := {
  textWidth : option Q;
  indent : option Q;
  align : option string;
  lineGap : option Q
}.

Definition noOptions : TextOptions :=
  {| textWidth := None; indent := None; align := None; lineGap := None |}.

(** A drawing call received by the canvas. A text is logged with the
    position, font, size and fill colour it is drawn with. *)
Inductive Op : Type :=
| OpText (content : string) (x y : Q) (fontName : string) (size : Q)
         (fill : string) (options : TextOptions)
| OpMoveTo (x y : Q)
| OpLineTo (x y : Q)
| OpStroke (fill : string)
| OpAddPage.

(** The state of the document: the cursor, the page, the graphics state
    and the calls drawn so far, oldest first. *)
Record Doc : Type := {
  docX : Q;
  docY : Q;
  page : Page;
  docFont : string;
  docFontSize : Q;
  docFill : string;
  ops : list Op
}.

Definition black : string := "#000000".
Definition white : string := "#ffffff".
Definition grey : string := "#666666".

(** pdfkit's page sizes, in points. *)
Definition pageDimensions (s : PageSize) : Q * Q :=
  match s with
  | A4 => ((59528 # 100)%Q, (84189 # 100)%Q)
  | LETTER => (612%Q, 792%Q)
  end.

(** [new PDFDocument({ margin, size, bufferPages: true })]: the first page
    with the four margins equal, the cursor at its top left corner,
    Helvetica at 12 points, black fill. *)
Definition newDocument (m : Q) (s : PageSize) : Doc :=
  {| docX := m; docY := m;
     page := {| width := fst (pageDimensions s);
                height := snd (pageDimensions s);
                margins := {| Margins.top := m; Margins.bottom := m;
                              Margins.left := m; Margins.right := m |} |};
     docFont := "Helvetica"; docFontSize := 12%Q; docFill := black;
     ops := [] |}.

Definition emit (o : Op) (d : Doc) : Doc :=
  {| docX := docX d; docY := docY d; page := page d; docFont := docFont d;
     docFontSize := docFontSize d; docFill := docFill d;
     ops := (ops d ++ [o])%list |}.

Definition setX (v : Q) (d : Doc) : Doc :=
  {| docX := v; docY := docY d; page := page d; docFont := docFont d;
     docFontSize := docFontSize d; docFill := docFill d; ops := ops d |}.

(** [doc.y = v]. *)
Definition setY (v : Q) (d : Doc) : Doc :=
  {| docX := docX d; docY := v; page := page d; docFont := docFont d;
     docFontSize := docFontSize d; docFill := docFill d; ops := ops d |}.

Definition fontSize (n : Q) (d : Doc) : Doc :=
  {| docX := docX d; docY := docY d; page := page d; docFont := docFont d;
     docFontSize := n; docFill := docFill d; ops := ops d |}.

Definition font (f : string) (d : Doc) : Doc :=
  {| docX := docX d; docY := docY d; page := page d; docFont := f;
     docFontSize := docFontSize d; docFill := docFill d; ops := ops d |}.

Definition fillColor (c : string) (d : Doc) : Doc :=
  {| docX := docX d; docY := docY d; page := page d; docFont := docFont d;
     docFontSize := docFontSize d; docFill := c; ops := ops d |}.

Definition moveTo (x y : Q) (d : Doc) : Doc := emit (OpMoveTo x y) d.
Definition lineTo (x y : Q) (d : Doc) : Doc := emit (OpLineTo x y) d.
Definition stroke (d : Doc) : Doc := emit (OpStroke (docFill d)) d.

(** [addPage()]: a page of the same size, the cursor back at its top left
    corner. *)
Definition addPage (d : Doc) : Doc :=
  setY (Margins.top (margins (page d)))
    (setX (Margins.left (margins (page d))) (emit OpAddPage d)).

(** [a > b] on numbers. *)
Definition Qgtb (a b : Q) : bool := negb (Qle_bool a b).

(** What the canvas computes by itself. *)
Record Canvas : Type := {
  (** the height of a line in a font at a size *)
  currentLineHeight : string -> Q -> Q;
  (** the cursor after a text was wrapped and drawn from a position *)
  textFlow : Page -> string -> Q -> Q -> Q -> string -> TextOptions -> Q
}.

(* ====================================================================== *)
(** * The builder *)
(* ====================================================================== *)

(** The fields [data] and [options] of a [ContractPdfBuilder]; its [doc]
    is the [Doc] that the drawing steps pass along. *)
Record ContractPdfBuilder : Type := {
  data : ContractData;
  options : Options
}.

(** The constructor: the defaults of the options. *)
Definition newContractPdfBuilder (data : ContractData) (o : PdfOptions)
  : ContractPdfBuilder :=
  {| data := data;
     options := {| includeSignatureMarkers := orDefault (includeSignatureMarkers' o) true;
                   margin := orDefault (margin' o) 72%Q;
                   pageSize := orDefault (pageSize' o) A4 |} |}.

(** [options = {}]. *)
Definition defaultPdfOptions : PdfOptions :=
  {| includeSignatureMarkers' := None; margin' := None; pageSize' := None |}.

(** The document the constructor creates. *)
Definition initialDoc (this : ContractPdfBuilder) : Doc :=
  newDocument (margin (options this)) (pageSize (options this)).

(** ** Section model *)

Definition buildSections (this : ContractPdfBuilder) : list ContractSection :=
  [ {| title := "SCOPE OF SERVICES";
       items := [
         "The Provider agrees to perform the following services: "
           ++ projectDescription (data this);
         "All services shall be performed in a professional and workmanlike manner consistent with industry standards.";
         "The Provider shall dedicate sufficient resources and qualified personnel to complete the services in a timely manner.";
         "Any changes to the scope of services must be agreed upon in writing by both parties." ] |};
    {| title := "COMPENSATION";
       items := [
         "The Client agrees to pay the Provider a total amount of €"
           ++ toLocaleString (paymentAmount (data this))
           ++ " (excluding VAT) for the services described herein.";
         "Payment terms: " ++ paymentTerms (data this);
         "All invoices shall be paid within thirty (30) days of receipt unless otherwise specified.";
         "Late payments shall accrue interest at a rate of 1.5% per month or the maximum rate permitted by law, whichever is lower." ] |};
    {| title := "TERM AND TERMINATION";
       items := [
         "This Agreement shall commence on the Effective Date and shall continue until all services have been completed and accepted by the Client.";
         "Either party may terminate this Agreement for convenience upon thirty (30) days prior written notice to the other party.";
         "Either party may terminate this Agreement immediately upon written notice if the other party materially breaches any provision of this Agreement and fails to cure such breach within fifteen (15) days of receiving written notice thereof.";
         "Upon termination, the Client shall pay the Provider for all services satisfactorily rendered up to the date of termination." ] |};
    {| title := "CONFIDENTIALITY";
       items := [
         "Each party agrees to maintain the confidentiality of any proprietary or confidential information received from the other party during the term of this Agreement.";
         "Confidential information shall not include information that: (a) is or becomes publicly available through no fault of the receiving party; (b) was rightfully in the receiving party's possession prior to disclosure; or (c) is independently developed by the receiving party.";
         "This confidentiality obligation shall survive the termination of this Agreement for a period of three (3) years." ] |};
    {| title := "INTELLECTUAL PROPERTY";
       items := [
         "All intellectual property rights in any work product created by the Provider specifically for the Client under this Agreement shall be assigned to the Client upon full payment.";
         "The Provider retains all rights to pre-existing materials, tools, and methodologies used in performing the services.";
         "The Provider grants the Client a non-exclusive, perpetual license to use any pre-existing materials incorporated into the deliverables." ] |};
    {| title := "LIMITATION OF LIABILITY";
       items := [
         "Neither party shall be liable to the other for any indirect, incidental, special, consequential, or punitive damages arising out of or related to this Agreement.";
         "The Provider's total aggregate liability under this Agreement shall not exceed the total amount paid by the Client under this Agreement.";
         "The limitations set forth in this section shall not apply to breaches of confidentiality obligations or gross negligence or willful misconduct." ] |};
    {| title := "GENERAL PROVISIONS";
       items := [
         "This Agreement constitutes the entire agreement between the parties with respect to the subject matter hereof and supersedes all prior negotiations, representations, or agreements relating thereto.";
         "This Agreement shall be governed by and construed in accordance with the laws of the Netherlands, without regard to its conflict of laws principles.";
         "Any disputes arising out of or in connection with this Agreement shall be submitted to the exclusive jurisdiction of the courts of Amsterdam, the Netherlands.";
         "Any amendments or modifications to this Agreement must be made in writing and signed by both parties.";
         "If any provision of this Agreement is held to be invalid or unenforceable, the remaining provisions shall continue in full force and effect." ] |} ].

(** The anchor tokens that the signing service searches for. *)
Definition clientMarker : string := "{{ClientSignature}}".
Definition providerMarker : string := "{{ProviderSignature}}".

Section Layout.

Variable canvas : Canvas.

(** [doc.text(content, options)] and [doc.text(content, x, y, options)]:
    the cursor is moved first when a position is given, the text is drawn
    there, and the cursor ends where the canvas leaves it. A page that the
    canvas starts by itself while it wraps a long text is part of
    [textFlow]; [OpAddPage] logs the calls of [addPage] only. *)
Definition text (content : string) (at_ : option (Q * Q)) (o : TextOptions)
  (d : Doc) : Doc :=
  let d0 := match at_ with
            | Some (x, y) => setY y (setX x d)
            | None => d
            end in
  setY (textFlow canvas (page d0) (docFont d0) (docFontSize d0)
          (docX d0) (docY d0) content o)
    (emit (OpText content (docX d0) (docY d0) (docFont d0) (docFontSize d0)
             (docFill d0) o) d0).

(** [doc.moveDown(lines)]. *)
Definition moveDown (lines : Q) (d : Doc) : Doc :=
  setY (docY d + currentLineHeight canvas (docFont d) (docFontSize d) * lines)%Q d.

Definition centered : TextOptions :=
  {| textWidth := None; indent := None; align := Some "center"; lineGap := None |}.

Definition justified : TextOptions :=
  {| textWidth := None; indent := None; align := Some "justify"; lineGap := None |}.

Definition itemOptions : TextOptions :=
  {| textWidth := None; indent := Some 25%Q; align := Some "justify";
     lineGap := Some 2%Q |}.

Definition withWidth (w : Q) : TextOptions :=
  {| textWidth := Some w; indent := None; align := None; lineGap := None |}.

Definition renderHeader (this : ContractPdfBuilder) (d : Doc) : Doc :=
  let d := text "SERVICE AGREEMENT" None centered
             (font "Helvetica-Bold" (fontSize 20%Q d)) in
  let d := moveDown (1 # 2)%Q d in
  let d := text ("Contract No: " ++ contractNumber (data this)) None centered
             (fillColor grey (font "Helvetica" (fontSize 10%Q d))) in
  moveDown 2%Q (fillColor black d).

Definition renderPreamble (this : ContractPdfBuilder) (d : Doc) : Doc :=
  let d := font "Helvetica" (fontSize 11%Q d) in
  let d := text ("This Service Agreement (" ++ dq ++ "Agreement" ++ dq
                   ++ ") is entered into as of " ++ effectiveDate (data this)
                   ++ " by and between:") None noOptions d in
  let d := moveDown 1%Q d in
  (* Client party *)
  let d := text (clientName (data this)) None noOptions (font "Helvetica-Bold" d) in
  let d := text (clientAddress (data this)) None noOptions (font "Helvetica" d) in
  let d := text (clientCity (data this)) None noOptions d in
  let d := text ("Email: " ++ clientEmail (data this)) None noOptions d in
  let d := text ("(hereinafter referred to as the " ++ dq ++ "Client" ++ dq ++ ")")
             None noOptions (font "Helvetica-Oblique" d) in
  let d := moveDown 1%Q d in
  let d := text "and" None centered (font "Helvetica" d) in
  let d := moveDown 1%Q d in
  (* Provider party *)
  let d := text (providerName (data this)) None noOptions (font "Helvetica-Bold" d) in
  let d := text (providerAddress (data this)) None noOptions (font "Helvetica" d) in
  let d := text (providerCity (data this)) None noOptions d in
  let d := text ("(hereinafter referred to as the " ++ dq ++ "Provider" ++ dq ++ ")")
             None noOptions (font "Helvetica-Oblique" d) in
  let d := moveDown 2%Q d in
  let d := text ("NOW, THEREFORE, in consideration of the mutual covenants and agreements set forth herein, "
                   ++ "and for other good and valuable consideration, the receipt and sufficiency of which are hereby "
                   ++ "acknowledged, the parties agree as follows:")
             None noOptions (font "Helvetica" d) in
  moveDown 2%Q d.

(** The label of an item. *)
Definition itemLabel (sectionNumber itemNumber : nat) : string :=
  natToString sectionNumber ++ "." ++ natToString itemNumber.

(** The loop over the items of a section, [itemNumber] counting up. *)
Fixpoint renderItems (sectionNumber itemNumber : nat) (its : list string)
  (d : Doc) : Doc :=
  match its with
  | [] => d
  | item :: rest =>
      let d := text (itemLabel sectionNumber itemNumber ++ "  " ++ item)
                 None itemOptions d in
      let d := moveDown (1 # 2)%Q d in
      renderItems sectionNumber (S itemNumber) rest d
  end.

Definition renderSection (this : ContractPdfBuilder) (sectionNumber : nat)
  (section : ContractSection) (d : Doc) : Doc :=
  (* a new page when less than 100 points remain *)
  let d := if Qgtb (docY d) (height (page d) - margin (options this) - 100)%Q
           then addPage d else d in
  let d := text (natToString sectionNumber ++ ". " ++ title section)
             None noOptions (font "Helvetica-Bold" (fontSize 12%Q d)) in
  let d := moveDown (1 # 2)%Q d in
  let d := font "Helvetica" (fontSize 11%Q d) in
  let d := renderItems sectionNumber 1 (items section) d in
  moveDown (1 # 2)%Q d.

(** The loop over the sections, [sectionNumber] counting up. *)
Fixpoint renderSectionsFrom (this : ContractPdfBuilder) (sectionNumber : nat)
  (sections : list ContractSection) (d : Doc) : Doc :=
  match sections with
  | [] => d
  | section :: rest =>
      renderSectionsFrom this (S sectionNumber) rest
        (renderSection this sectionNumber section d)
  end.

Definition renderSections (this : ContractPdfBuilder) (d : Doc) : Doc :=
  renderSectionsFrom this 1 (buildSections this) d.

Definition renderSignatureRow (this : ContractPdfBuilder) (x y width : Q)
  (label name signatureMarker : string) (d : Doc) : Doc :=
  let d := font "Helvetica" (fontSize 10%Q d) in
  let d := text label (Some (x, y)) (withWidth width) d in
  let d := if includeSignatureMarkers (options this)
           then fillColor black
                  (text signatureMarker (Some (x, (y + 25)%Q)) noOptions
                     (fillColor white (fontSize 1%Q d)))
           else d in
  let lineY := (y + 85)%Q in
  let d := stroke (lineTo (x + width - 20)%Q lineY (moveTo x lineY d)) in
  let d := font "Helvetica" (fontSize 10%Q d) in
  let d := text ("Name: " ++ name) (Some (x, (lineY + 8)%Q)) (withWidth width) d in
  let d := text "Title: _______________________" (Some (x, (lineY + 23)%Q))
             (withWidth width) d in
  text "Date: _______________________" (Some (x, (lineY + 38)%Q))
    (withWidth width) d.

(** The first half of [renderSignatureBlock]: the page check and the
    closing sentence, up to the point where [clientStartY] is read. *)
Definition signatureLead (this : ContractPdfBuilder) (d : Doc) : Doc :=
  let d := if Qgtb (docY d) (height (page d) - margin (options this) - 400)%Q
           then addPage d else d in
  let d := moveDown 2%Q d in
  let d := text "IN WITNESS WHEREOF, the parties hereto have executed this Agreement as of the date first written above."
             None justified (font "Helvetica" (fontSize 11%Q d)) in
  moveDown 3%Q d.

(** The second half of [renderSignatureBlock]: the two stacked rows. *)
Definition signatureRows (this : ContractPdfBuilder) (d : Doc) : Doc :=
  let pageWidth := (width (page d) - Margins.left (margins (page d))
                    - Margins.right (margins (page d)))%Q in
  let signatureWidth := (pageWidth * (3 # 4))%Q in
  let leftX := Margins.left (margins (page d)) in
  let clientStartY := docY d in
  let d := renderSignatureRow this leftX clientStartY signatureWidth
             "CLIENT" (clientName (data this)) clientMarker d in
  let d := setY (clientStartY + 170)%Q d in
  let providerStartY := docY d in
  let d := renderSignatureRow this leftX providerStartY signatureWidth
             "PROVIDER" (providerName (data this)) providerMarker d in
  setY (providerStartY + 140)%Q d.

Definition renderSignatureBlock (this : ContractPdfBuilder) (d : Doc) : Doc :=
  signatureRows this (signatureLead this d).

(** The four drawing phases of [build], in order. *)
Definition draw (this : ContractPdfBuilder) : Doc :=
  renderSignatureBlock this
    (renderSections this (renderPreamble this (renderHeader this (initialDoc this)))).

End Layout.

(* ====================================================================== *)
(** * The assembler: [build] *)
(* ====================================================================== *)

(** What the document signals to its listeners. *)
Inductive Event : Type :=
| EvData (chunk : list Byte.byte)
| EvEnd
| EvError (reason : string).

(** The promise returned by [build]. It is settled once: a later call of
    [resolve] or [reject] changes nothing. *)
Inductive Promise : Type :=
| Pending
| Fulfilled (buffer : list Byte.byte)
| Rejected (reason : string).

Definition resolve (buffer : list Byte.byte) (p : Promise) : Promise :=
  match p with
  | Pending => Fulfilled buffer
  | _ => p
  end.

Definition reject (reason : string) (p : Promise) : Promise :=
  match p with
  | Pending => Rejected reason
  | _ => p
  end.

(** The closure of the executor: the chunks received and the promise. *)
Record Executor : Type := {
  chunks : list (list Byte.byte);
  promise : Promise
}.

(** The three listeners registered before any drawing. *)
Definition notify (x : Executor) (ev : Event) : Executor :=
  match ev with
  | EvData chunk => {| chunks := (chunks x ++ [chunk])%list; promise := promise x |}
  | EvEnd => {| chunks := chunks x;
                promise := resolve (concat (chunks x)) (promise x) |}
  | EvError reason => {| chunks := chunks x;
                         promise := reject reason (promise x) |}
  end.

(** What the document does during one build: the events it signals while
    the drawing calls are made, the exception that one of these calls
    throws, if any, and the events it signals once [end] was called. *)
Record Run : Type := {
  whileDrawing : list Event;
  thrown : option string;
  afterEnd : list Event
}.

(** The executor of [build] against a run of the document. An exception
    leaves the [try] block before [doc.end()] is reached and is passed to
    [reject]. *)
Definition settle (r : Run) : Promise :=
  let x := fold_left notify (whileDrawing r)
             {| chunks := []; promise := Pending |} in
  match thrown r with
  | Some error => reject error (promise x)
  | None => promise (fold_left notify (afterEnd r) x)
  end.

(** [build]: the document answers the calls drawn with a run. *)
Definition build (canvas : Canvas) (document : list Op -> Run)
  (this : ContractPdfBuilder) : Promise :=
  settle (document (ops (draw canvas this))).

Definition generateContractPdf (canvas : Canvas) (document : list Op -> Run)
  (data : ContractData) (o : PdfOptions) : Promise :=
  build canvas document (newContractPdfBuilder data o).

(** ** Observations on the log and on runs *)

(** The texts drawn, oldest first. *)
Definition textOf (o : Op) : list string :=
  match o with
  | OpText content _ _ _ _ _ _ => [content]
  | _ => []
  end.

Definition texts (l : list Op) : list string := flat_map textOf l.

(** Occurrences of a token in all the texts drawn. *)
Definition tokenCount (tok : string) (l : list Op) : nat :=
  list_sum (map (occurrences tok) (texts l)).

Definition isAddPage (o : Op) : bool :=
  match o with
  | OpAddPage => true
  | _ => false
  end.


Definition isEnd (ev : Event) : bool :=
  match ev with
  | EvEnd => true
  | _ => false
  end.

Definition isError (ev : Event) : bool :=
  match ev with
  | EvError _ => true
  | _ => false
  end.

Definition chunkOf (ev : Event) : list (list Byte.byte) :=
  match ev with
  | EvData chunk => [chunk]
  | _ => []
  end.

(** Equality of drawing calls up to the value of their numbers. *)
Definition optQeq (a b : option Q) : Prop :=
  match a, b with
  | Some p, Some q => (p == q)%Q
  | None, None => True
  | _, _ => False
  end.

Definition textOptionsEq (a b : TextOptions) : Prop :=
  optQeq (textWidth a) (textWidth b) /\ optQeq (indent a) (indent b)
  /\ align a = align b /\ optQeq (lineGap a) (lineGap b).

Definition opEq (a b : Op) : Prop :=
  match a, b with
  | OpText c x y f s fill o, OpText c' x' y' f' s' fill' o' =>
      c = c' /\ (x == x')%Q /\ (y == y')%Q /\ f = f' /\ (s == s')%Q
      /\ fill = fill' /\ textOptionsEq o o'
  | OpMoveTo x y, OpMoveTo x' y' => (x == x')%Q /\ (y == y')%Q
  | OpLineTo x y, OpLineTo x' y' => (x == x')%Q /\ (y == y')%Q
  | OpStroke fill, OpStroke fill' => fill = fill'
  | OpAddPage, OpAddPage => True
  | _, _ => False
  end.

(** Two calls that draw the same thing at the same place, whatever the
    font, the size and the colour. *)
Definition sameGeometry (a b : Op) : Prop :=
  match a, b with
  | OpText c x y _ _ _ o, OpText c' x' y' _ _ _ o' =>
      c = c' /\ (x == x')%Q /\ (y == y')%Q /\ textOptionsEq o o'
  | OpMoveTo x y, OpMoveTo x' y' => (x == x')%Q /\ (y == y')%Q
  | OpLineTo x y, OpLineTo x' y' => (x == x')%Q /\ (y == y')%Q
  | OpStroke _, OpStroke _ => True
  | OpAddPage, OpAddPage => True
  | _, _ => False
  end.

(** ** The signature row as the specification words it

    The role label at [(leftX, startY)]; the anchor token, when markers
    are enabled, at [(leftX, startY + 25)] in near-invisible style; a rule
    at [startY + 85] spanning [signatureWidth - 20]; the name, title and
    date lines at [startY + 93], [+ 108] and [+ 123]. *)
Definition specSignatureRow (markers : bool) (leftX startY signatureWidth : Q)
  (label name marker : string) : list Op :=
  ([ OpText label leftX startY "Helvetica" 10%Q black (withWidth signatureWidth) ]
   ++ (if markers
       then [ OpText marker leftX (startY + 25)%Q "Helvetica" 1%Q white noOptions ]
       else [])
   ++ [ OpMoveTo leftX (startY + 85)%Q;
        OpLineTo (leftX + (signatureWidth - 20))%Q (startY + 85)%Q;
        OpStroke black;
        OpText ("Name: " ++ name) leftX (startY + 93)%Q "Helvetica" 10%Q black
          (withWidth signatureWidth);
        OpText "Title: _______________________" leftX (startY + 108)%Q
          "Helvetica" 10%Q black (withWidth signatureWidth);
        OpText "Date: _______________________" leftX (startY + 123)%Q
          "Helvetica" 10%Q black (withWidth signatureWidth) ])%list.

(** The fill colour a call paints with, if it paints. *)
Definition opFill (o : Op) : option string :=
  match o with
  | OpText _ _ _ _ _ fill _ => Some fill
  | OpStroke fill => Some fill
  | _ => None
  end.

Definition paintedWith (c : string) (o : Op) : Prop :=
  match opFill o with
  | Some fill => fill = c
  | None => True
  end.

(** The numbered texts of the sections as the specification words them:
    section [i] and its item [j], counted from their positions in the
    lists. *)
Definition numberedItems (i start : nat) (its : list string) : list string :=
  map (fun p => (natToString i ++ "." ++ natToString (fst p)) ++ "  " ++ snd p)
    (combine (seq start (length its)) its).

Definition numberedSections (start : nat) (sections : list ContractSection)
  : list string :=
  flat_map (fun p => (natToString (fst p) ++ ". " ++ title (snd p))
                       :: numberedItems (fst p) 1 (items (snd p)))
    (combine (seq start (length sections)) sections).

(** The same builder with the marker option set to [b]. *)
Definition withMarkers (b : bool) (this : ContractPdfBuilder) : ContractPdfBuilder :=
  {| data := data this;
     options := {| includeSignatureMarkers := b;
                   margin := margin (options this);
                   pageSize := pageSize (options this) |} |}.

(** No string field of the contract data holds the token. *)
Definition dataFreeOf (tok : string) (c : ContractData) : Prop :=
  occurrences tok (clientName c) = 0
  /\ occurrences tok (clientAddress c) = 0
  /\ occurrences tok (clientCity c) = 0
  /\ occurrences tok (clientEmail c) = 0
  /\ occurrences tok (providerName c) = 0
  /\ occurrences tok (providerAddress c) = 0
  /\ occurrences tok (providerCity c) = 0
  /\ occurrences tok (contractNumber c) = 0
  /\ occurrences tok (effectiveDate c) = 0
  /\ occurrences tok (projectDescription c) = 0
  /\ occurrences tok (paymentTerms c) = 0.

(** The fill colours of a finished document: black, except for the grey
    line of the contract number and the white anchor texts of one point. *)
Definition fillAllowed (this : ContractPdfBuilder) (o : Op) : Prop :=
  match o with
  | OpText content _ _ fontName size fill _ =>
      fill = black
      \/ (fill = grey
          /\ content = "Contract No: " ++ contractNumber (data this))
      \/ (fill = white /\ (size == 1)%Q
          /\ (content = clientMarker \/ content = providerMarker))
  | OpStroke fill => fill = black
  | _ => True
  end.

(** The texts of the preamble, in the order drawn. *)
Definition preambleTexts (c : ContractData) : list string :=
  [ "This Service Agreement (" ++ dq ++ "Agreement" ++ dq
      ++ ") is entered into as of " ++ effectiveDate c ++ " by and between:";
    clientName c;
    clientAddress c;
    clientCity c;
    "Email: " ++ clientEmail c;
    "(hereinafter referred to as the " ++ dq ++ "Client" ++ dq ++ ")";
    "and";
    providerName c;
    providerAddress c;
    providerCity c;
    "(hereinafter referred to as the " ++ dq ++ "Provider" ++ dq ++ ")";
    "NOW, THEREFORE, in consideration of the mutual covenants and agreements set forth herein, "
      ++ "and for other good and valuable consideration, the receipt and sufficiency of which are hereby "
      ++ "acknowledged, the parties agree as follows:" ].

Definition witnessText : string :=
  "IN WITNESS WHEREOF, the parties hereto have executed this Agreement as of the date first written above.".

(** The document when the signature rows are about to be drawn. *)
Definition beforeRows (canvas : Canvas) (this : ContractPdfBuilder) : Doc :=
  signatureLead canvas this
    (renderSections canvas this
       (renderPreamble canvas this (renderHeader canvas this (initialDoc this)))).


(** Events that neither complete nor fail the document. *)
Definition quiet (evs : list Event) : bool :=
  forallb (fun ev => negb (isEnd ev || isError ev)) evs.


(** The texts of a signature row. *)
Definition rowTexts (markers : bool) (label name marker : string) : list string :=
  (label :: (if markers then [marker] else [])
     ++ [ ("Name: " ++ name)%string; "Title: _______________________";
          "Date: _______________________" ])%list.




(** Two canvases that answer alike. *)
Definition sameAnswers (c1 c2 : Canvas) : Prop :=
  (forall f size, currentLineHeight c1 f size = currentLineHeight c2 f size)
  /\ (forall p f size x y content o,
        textFlow c1 p f size x y content o = textFlow c2 p f size x y content o).

(** ** Values for the examples *)

(** The minimal contract of the end-to-end scenario: every string is [X]. *)
Definition minimalData (amount : JsNumber) : ContractData :=
  {| clientName := "X"; clientAddress := "X"; clientCity := "X";
     clientEmail := "X"; providerName := "X"; providerAddress := "X";
     providerCity := "X"; contractNumber := "X"; effectiveDate := "X";
     projectDescription := "X"; paymentAmount := amount; paymentTerms := "X" |}.

(** A canvas on which a line is as high as the font size and every text
    takes one line. *)
Definition plainCanvas : Canvas :=
  {| currentLineHeight := fun _ size => size;
     textFlow := fun _ _ size _ y _ _ => (y + size)%Q |}.

(** The builder of the end-to-end scenario, for an amount. *)
Definition minimalBuilder (amount : JsNumber) : ContractPdfBuilder :=
  newContractPdfBuilder (minimalData amount) defaultPdfOptions.



(** Another contract with the description, amount and terms of the
    minimal one. *)
Definition otherParties : ContractData :=
  {| clientName := "Acme B.V."; clientAddress := "Keizersgracht 1";
     clientCity := "Amsterdam"; clientEmail := "legal@acme.example";
     providerName := "Studio Y"; providerAddress := "Coolsingel 2";
     providerCity := "Rotterdam"; contractNumber := "SA-2024-001";
     effectiveDate := "1 January 2024"; projectDescription := "X";
     paymentAmount := JsFin (2 # 4); paymentTerms := "X" |}.

Definition b1 : Byte.byte := Byte.x25.
Definition b2 : Byte.byte := Byte.x50.

(** Runs of the document: two chunks and the end; an error after [end]
    was called; an exception out of a drawing call. *)
Definition completes (_ : list Op) : Run :=
  {| whileDrawing := [EvData [b1]]; thrown := None;
     afterEnd := [EvData [b2]; EvEnd] |}.

Definition failsAfterEnd (_ : list Op) : Run :=
  {| whileDrawing := [EvData [b1]]; thrown := None;
     afterEnd := [EvData [b2]; EvError "out of memory"; EvEnd] |}.

Definition throwsWhileDrawing (_ : list Op) : Run :=
  {| whileDrawing := [EvData [b1]]; thrown := Some "invalid argument";
     afterEnd := [] |}.

(** ** Further observations on the log *)

(** The calls of [addPage] in a log. *)
Definition pageBreaks (l : list Op) : nat := length (filter isAddPage l).

(** A call draws an item of a section: the text [content] at the column
    [x], in Helvetica of 11 points and the fill colour [fill], with the
    options of an item. *)
Definition itemDrawn (x : Q) (fill : string) (o : Op) (content : string) : Prop :=
  exists y, o = OpText content x y "Helvetica" 11%Q fill itemOptions.

(** ** Reading a formatted amount

    The value that the digits of a formatted amount stand for, in
    thousandths. *)

Definition digitValue (c : ascii) : N := N.of_nat (nat_of_ascii c - 48).

(** The value of decimal digits given lowest first. *)
Fixpoint valueLowFirst (ds : list ascii) : N :=
  match ds with
  | [] => 0
  | c :: rest => digitValue c + 10 * valueLowFirst rest
  end%N.

(** The value of decimal digits given highest first. *)
Definition digitsValue (ds : list ascii) : N := valueLowFirst (rev ds).

Fixpoint beforeComma (s : list ascii) : list ascii :=
  match s with
  | [] => []
  | c :: rest => if Ascii.eqb c "," then [] else c :: beforeComma rest
  end.

Fixpoint afterComma (s : list ascii) : list ascii :=
  match s with
  | [] => []
  | c :: rest => if Ascii.eqb c "," then rest else afterComma rest
  end.

Definition notSeparator (c : ascii) : bool := negb (Ascii.eqb c ".").

(** The thousandths of a magnitude: its integer digits without their
    separators, and its first three fraction digits, a missing one being
    a zero. *)
Definition readThousandths (s : list ascii) : N :=
  (1000 * digitsValue (filter notSeparator (beforeComma s))
   + digitsValue (firstn 3 (afterComma s ++ ["0"; "0"; "0"]%char)))%N.

(** The thousandths of an amount with its sign. *)
Definition readAmount (s : string) : Z :=
  match list_ascii_of_string s with
  | [] => 0
  | c :: rest =>
      if Ascii.eqb c "-" then (- Z.of_N (readThousandths rest))%Z
      else Z.of_N (readThousandths (c :: rest))
  end.

(* ====================================================================== *)
(** * The signing service: [signhostService.ts] *)
(* ====================================================================== *)

Module Signhost.

(** JavaScript's [toLowerCase] on the ASCII letters; the other bytes are
    kept. It is applied to checksums, which are compared with a
    hexadecimal digest. *)
Definition lower_char (c : ascii) : ascii :=
  let n := nat_of_ascii c in
  if andb (Nat.leb 65 n) (Nat.leb n 90) then ascii_of_nat (n + 32) else c.

Fixpoint toLowerCase (s : string) : string :=
  match s with
  | EmptyString => EmptyString
  | String c s' => String (lower_char c) (toLowerCase s')
  end.

Definition ascii_char (c : ascii) : bool := Nat.ltb (nat_of_ascii c) 128.

Fixpoint isAscii (s : string) : bool :=
  match s with
  | EmptyString => true
  | String c s' => ascii_char c && isAscii s'
  end.

(** ** Values

    The values that a request body parsed from JSON can hold. An object
    is the list of its own properties; the first entry of a key is its
    property. *)
Inductive JsValue : Type :=
| VUndefined
| VNull
| VBool (b : bool)
| VNumber (n : JsNumber)
| VString (s : string)
| VArray (elements : list JsValue)
| VObject (fields : list (string * JsValue)).

(** The numbers that are falsy: both zeros and NaN. *)
Definition falsyNumber (n : JsNumber) : bool :=
  match n with
  | JsNaN => true
  | JsNegZero => true
  | JsFin q => Qeq_bool q 0
  | JsInf _ => false
  end.

(** [!!v]. *)
Definition truthy (v : JsValue) : bool :=
  match v with
  | VUndefined => false
  | VNull => false
  | VBool b => b
  | VNumber n => negb (falsyNumber n)
  | VString s => negb (String.eqb s "")
  | VArray _ => true
  | VObject _ => true
  end.

(** [typeof v === "object"]. *)
Definition typeofObject (v : JsValue) : bool :=
  match v with
  | VNull => true
  | VArray _ => true
  | VObject _ => true
  | _ => false
  end.

(** [typeof v === "number"]. *)
Definition typeofNumber (v : JsValue) : bool :=
  match v with
  | VNumber _ => true
  | _ => false
  end.

Fixpoint getField (key : string) (fields : list (string * JsValue)) : JsValue :=
  match fields with
  | [] => VUndefined
  | (k, v) :: rest => if String.eqb k key then v else getField key rest
  end.

Definition hasField (key : string) (fields : list (string * JsValue)) : bool :=
  existsb (fun p => String.eqb (fst p) key) fields.

(** [v.key] for a key that no prototype defines, on a value that is
    neither [null] nor [undefined]. *)
Definition getProp (v : JsValue) (key : string) : JsValue :=
  match v with
  | VObject fields => getField key fields
  | _ => VUndefined
  end.

(** What the platform computes: the hexadecimal SHA-1 digest of a text
    and the decimal text of a number. *)
Record Platform : Type := {
  sha1hex : string -> string;
  numberToString : JsNumber -> string
}.

(** The result of a call that may throw. *)
Inductive Outcome (A : Type) : Type :=
| Returned (value : A)
| Threw (error : string).

Arguments Returned {A} value.
Arguments Threw {A} error.

Definition typeError : string := "TypeError".

(** The text of a value inside a template literal, [None] when the
    conversion throws a [TypeError]. An array joins the texts of its
    elements with commas, [null] and [undefined] counting as empty; an
    object is [[object Object]] unless a property of its own hides
    [toString]: such a property is no function, and the conversion
    finds no other. *)
Fixpoint toStringValue (P : Platform) (v : JsValue) {struct v} : option string :=
  match v with
  | VUndefined => Some "undefined"
  | VNull => Some "null"
  | VBool true => Some "true"
  | VBool false => Some "false"
  | VNumber n => Some (numberToString P n)
  | VString s => Some s
  | VArray elements =>
      (fix join (l : list JsValue) : option string :=
         match l with
         | [] => Some ""
         | x :: rest =>
             let element :=
               match x with
               | VUndefined => Some ""
               | VNull => Some ""
               | _ => toStringValue P x
               end in
             match element, rest with
             | None, _ => None
             | Some e, [] => Some e
             | Some e, _ :: _ =>
                 match join rest with
                 | Some r => Some (e ++ "," ++ r)
                 | None => None
                 end
             end
         end) elements
  | VObject fields =>
      if hasField "toString" fields then None else Some "[object Object]"
  end.

(** ** Configuration *)

Record SignhostConfig : Type := {
  apiKey : string;
  appKey : string;
  sharedSecret : string;
  baseUrl : option string
}.

(** [Required<SignhostConfig>], the field [config] of the service. *)
Record SignhostService : Type := {
  configBaseUrl : string;
  configApiKey : string;
  configAppKey : string;
  configSharedSecret : string
}.

Definition createSignhostService (config : SignhostConfig) : SignhostService :=
  {| configBaseUrl := orDefault (baseUrl config) "https://api.signhost.com/api";
     configApiKey := apiKey config;
     configAppKey := appKey config;
     configSharedSecret := sharedSecret config |}.

(** ** Postbacks *)

(** The text that the checksum is the digest of. *)
Definition checksumData (this : SignhostService) (transactionId status : string)
  : string :=
  transactionId ++ "||" ++ status ++ "|" ++ configSharedSecret this.

(** [validatePostbackChecksum] on the values it is called with. The
    template literal converts the identifier and the status;
    [receivedChecksum.toLowerCase()] throws unless the checksum is a
    string. *)
Definition validatePostbackChecksumValue (P : Platform) (this : SignhostService)
  (transactionId status receivedChecksum : JsValue) : Outcome bool :=
  match toStringValue P transactionId, toStringValue P status with
  | Some id, Some st =>
      let data := checksumData this id st in
      let expectedChecksum := sha1hex P data in
      match receivedChecksum with
      | VString received =>
          Returned (String.eqb (toLowerCase expectedChecksum) (toLowerCase received))
      | _ => Threw typeError
      end
  | _, _ => Threw typeError
  end.

(** [validatePostbackChecksum] on arguments of its declared types. *)
Definition validatePostbackChecksum (P : Platform) (this : SignhostService)
  (transactionId : string) (status : JsNumber) (receivedChecksum : string) : bool :=
  String.eqb
    (toLowerCase (sha1hex P (checksumData this transactionId (numberToString P status))))
    (toLowerCase receivedChecksum).

(** [parsePostback]: [null] is [None]. *)
Definition parsePostback (P : Platform) (this : SignhostService) (body : JsValue)
  : Outcome (option JsValue) :=
  if negb (truthy body) || negb (typeofObject body) then Returned None
  else
    let postback := body in
    if negb (truthy (getProp postback "Id"))
       || negb (typeofNumber (getProp postback "Status"))
       || negb (truthy (getProp postback "Checksum"))
    then Returned None
    else
      match validatePostbackChecksumValue P this (getProp postback "Id")
              (getProp postback "Status") (getProp postback "Checksum") with
      | Returned isValid => Returned (if isValid then Some postback else None)
      | Threw error => Threw error
      end.

(** ** Transaction status *)

Definition WAITING_FOR_DOCUMENT : Z := 5.
Definition WAITING_FOR_SIGNER : Z := 10.
Definition IN_PROGRESS : Z := 20.
Definition SIGNED : Z := 30.
Definition REJECTED : Z := 40.
Definition EXPIRED : Z := 50.
Definition CANCELLED : Z := 60.
Definition FAILED : Z := 70.

Definition TransactionStatusLabels : list (Z * string) :=
  [ (WAITING_FOR_DOCUMENT, "Waiting for Document");
    (WAITING_FOR_SIGNER, "Waiting for Signer");
    (IN_PROGRESS, "In Progress");
    (SIGNED, "Signed");
    (REJECTED, "Rejected");
    (EXPIRED, "Expired");
    (CANCELLED, "Cancelled");
    (FAILED, "Failed") ].

(** A number is the code: the comparison of [includes], and the lookup
    of a property by a number. *)
Definition isCode (status : JsNumber) (code : Z) : bool :=
  match status with
  | JsFin q => Qeq_bool q (inject_Z code)
  | _ => false
  end.

Fixpoint lookupLabel (status : JsNumber) (labels : list (Z * string))
  : option string :=
  match labels with
  | [] => None
  | (code, label) :: rest =>
      if isCode status code then Some label else lookupLabel status rest
  end.

Definition getStatusLabel (P : Platform) (status : JsNumber) : string :=
  match lookupLabel status TransactionStatusLabels with
  | Some label => label
  | None => "Unknown (" ++ numberToString P status ++ ")"
  end.

Definition finalStatuses : list Z := [SIGNED; REJECTED; EXPIRED; CANCELLED; FAILED].

Definition isTransactionComplete (status : JsNumber) : bool :=
  existsb (isCode status) finalStatuses.

(** ** Files *)

(** The characters that [encodeURIComponent] keeps. *)
Definition unreserved (c : ascii) : bool :=
  let n := nat_of_ascii c in
  (Nat.leb 65 n && Nat.leb n 90) || (Nat.leb 97 n && Nat.leb n 122)
  || (Nat.leb 48 n && Nat.leb n 57)
  || existsb (Ascii.eqb c)
       ["-"; "_"; "."; "!"; "~"; "*"; "'"; "("; ")"]%char.

Definition hexDigit (k : nat) : ascii :=
  nth k ["0"; "1"; "2"; "3"; "4"; "5"; "6"; "7"; "8"; "9";
         "A"; "B"; "C"; "D"; "E"; "F"]%char "0"%char.

(** [encodeURIComponent] on the bytes of a text: a byte that is not kept
    becomes [%] and its two hexadecimal digits. *)
Fixpoint encodeURIComponent (s : string) : string :=
  match s with
  | EmptyString => EmptyString
  | String c s' =>
      if unreserved c then String c (encodeURIComponent s')
      else String "%" (String (hexDigit (nat_of_ascii c / 16))
                         (String (hexDigit (nat_of_ascii c mod 16))
                            (encodeURIComponent s')))
  end.

(** The address of a file of a transaction, as [uploadFileMetadata],
    [uploadFileMetadataAdvanced], [uploadFile] and [downloadDocument]
    build it. *)
Definition fileUrl (this : SignhostService) (transactionId fileId : string)
  : string :=
  configBaseUrl this ++ "/transaction/" ++ transactionId ++ "/file/"
    ++ encodeURIComponent fileId.

Record SignatureLocationInput : Type := {
  searchText : string;
  width : option JsNumber;
  height : option JsNumber
}.

(** The body that [uploadFileMetadata] sends. *)
Definition uploadFileMetadataBody (signerId displayName : string)
  (signatureLocation : option SignatureLocationInput) : JsValue :=
  VObject
    (("DisplayName", VString displayName)
       :: match signatureLocation with
          | Some location =>
              [ ("Signers",
                 VObject
                   [ (signerId,
                      VObject [ ("FormSets", VArray [VString "SignatureFormSet"]) ]) ]);
                ("FormSets",
                 VObject
                   [ ("SignatureFormSet",
                      VObject
                        [ ("SignatureField",
                           VObject
                             [ ("Type", VString "Signature");
                               ("Location",
                                VObject [ ("Search", VString (searchText location)) ]);
                               ("Width",
                                VNumber (orDefault (width location) (JsFin 520)));
                               ("Height",
                                VNumber (orDefault (height location) (JsFin 240))) ]) ]) ]) ]
          | None => []
          end)%list.

(** ** Transactions

    The input of [createTransaction] and the fields of a transaction of
    the service that the callers read. *)

Module SignerInput.
Record t : Type := {
  email : string;
  name : string;
  mobile : option string;
  signRequestMessage : option string;
  daysToRemind : option JsNumber;
  requireSmsVerification : option bool;
  requireEmailVerification : option bool;
  returnUrl : option string;
  reference : option string
}.
End SignerInput.

Module TransactionInput.
Record t : Type := {
  signers : list SignerInput.t;
  reference : option string;
  postbackUrl : option string;
  sendEmailNotifications : option bool;
  daysToExpire : option JsNumber
}.
End TransactionInput.

(** The [Id] of a signer is [SignerId] here, [Id] being the identifier
    of a transaction. *)
Record SignhostSigner : Type := {
  SignerId : string;
  SignUrl : string
}.

Record SignhostTransaction : Type := {
  Id : string;
  Status : JsNumber;
  Signers : list SignhostSigner
}.

(** ** Inverses and observations used in the properties *)

Definition hexValue (c : ascii) : option nat :=
  let n := nat_of_ascii c in
  if Nat.leb 48 n && Nat.leb n 57 then Some (n - 48)
  else if Nat.leb 65 n && Nat.leb n 70 then Some (n - 55)
  else None.

(** Reading back what [encodeURIComponent] writes. *)
Fixpoint decodePercent (s : string) : string :=
  match s with
  | EmptyString => EmptyString
  | String c rest =>
      match rest with
      | String h (String l rest') =>
          if Ascii.eqb c "%" then
            match hexValue h, hexValue l with
            | Some a, Some b => String (ascii_of_nat (16 * a + b)) (decodePercent rest')
            | _, _ => String c (decodePercent rest)
            end
          else String c (decodePercent rest)
      | _ => String c (decodePercent rest)
      end
  end.

(** What [encodeURIComponent] writes for one byte. *)
Definition encodeChar (c : ascii) : string :=
  if unreserved c then String c ""
  else String "%" (String (hexDigit (nat_of_ascii c / 16))
                     (String (hexDigit (nat_of_ascii c mod 16)) "")).

(** The search text of the signature field of a metadata body. *)
Definition searchOf (body : JsValue) : JsValue :=
  getProp (getProp (getProp (getProp (getProp body "FormSets") "SignatureFormSet")
                      "SignatureField") "Location") "Search".

(** The names of the form sets that the signers of a body refer to. *)
Definition referredFormSets (body : JsValue) : list JsValue :=
  match getProp body "Signers" with
  | VObject signers =>
      flat_map (fun p => match getProp (snd p) "FormSets" with
                         | VArray names => names
                         | _ => []
                         end) signers
  | _ => []
  end.

(** A platform for the examples: every digest is the digest of the empty
    text, and a number prints as the decimal digits of its integer part. *)
Definition examplePlatform : Platform :=
  {| sha1hex := fun _ => "da39a3ee5e6b4b0d3255bfef95601890afd80709";
     numberToString := fun n =>
       match n with
       | JsFin q => natToString (Z.to_nat (Qfloor q))
       | _ => "NaN"
       end |}.

Definition exampleService : SignhostService :=
  createSignhostService
    {| apiKey := "k"; appKey := "a"; sharedSecret := "s3cret"; baseUrl := None |}.

End Signhost.

(* ====================================================================== *)
(** * The demonstration script *)
(* ====================================================================== *)

Module Demo.

(** The options that [main] passes to [generateContractPdf]. *)
Definition pdfOptions : PdfOptions :=
  {| includeSignatureMarkers' := Some true; margin' := None;
     pageSize' := Some A4 |}.

(** The signature location that [main] passes to [uploadFileMetadata]. *)
Definition signatureLocation : Signhost.SignatureLocationInput :=
  {| Signhost.searchText := "{{ClientSignature}}";
     Signhost.width := Some (JsFin 300);
     Signhost.height := Some (JsFin 140) |}.

Definition fileId : string := "contract.pdf".
Definition displayName : string := "Service Agreement".

(** [CONFIG] and [SAMPLE_SIGNER], read from the environment when the
    script is loaded. *)
Record Config : Type := {
  SIGNHOST_API_KEY : string;
  SIGNHOST_APP_KEY : string;
  SIGNHOST_SHARED_SECRET : string;
  POSTBACK_URL : string;
  OUTPUT_DIR : string;
  DEMO_MODE : bool
}.

Record Signer : Type := {
  email : string;
  name : string;
  mobile : string
}.

(** ** Effects

    The calls that [main] makes to the file system, to the service, to
    the timer and to the process, in the order made. What is written to
    the console is not part of the model. *)
Inductive Action : Type :=
| MkdirSync (path : string)
| WriteFileSync (path : string) (content : list Byte.byte)
| CreateTransaction (input : Signhost.TransactionInput.t)
| UploadFileMetadata (transactionId fileId signerId displayName : string)
    (signatureLocation : option Signhost.SignatureLocationInput)
| UploadFile (transactionId fileId : string) (content : list Byte.byte)
| StartTransaction (transactionId : string)
| Sleep (ms : nat)
| GetTransaction (transactionId : string)
| DownloadDocument (transactionId fileId : string)
| DownloadReceipt (transactionId : string)
| Exit (code : nat).

(** How an awaited call of the service ends. *)
Inductive Settled (A : Type) : Type :=
| Resolved (value : A)
| Failed (error : string)
| Unsettled.

Arguments Resolved {A} value.
Arguments Failed {A} error.
Arguments Unsettled {A}.

(** What the file system and the service answer to the calls. The service
    object that [main] makes out of the credentials of [CONFIG] is not
    part of the model: its methods are the calls that the world
    answers. *)
Record World : Type := {
  existsSync : string -> bool;
  mkdirSync : string -> Signhost.Outcome unit;
  writeFileSync : string -> list Byte.byte -> Signhost.Outcome unit;
  pathJoin : string -> string -> string;
  createTransaction : Signhost.TransactionInput.t
                      -> Settled Signhost.SignhostTransaction;
  uploadFileMetadata : string -> string -> string -> string
                       -> option Signhost.SignatureLocationInput -> Settled unit;
  uploadFile : string -> string -> list Byte.byte -> Settled unit;
  startTransaction : string -> Settled Signhost.SignhostTransaction;
  getTransaction : string -> Settled Signhost.SignhostTransaction;
  downloadDocument : string -> string -> Settled (list Byte.byte);
  downloadReceipt : string -> Settled (list Byte.byte)
}.

(** Where a piece of the script leaves the control: at its end with a
    value, in an exception, or nowhere, the process being exited or an
    awaited promise being never settled. *)
Inductive Step (A : Type) : Type :=
| Continues (value : A)
| Throws (error : string)
| Halts.

Arguments Continues {A} value.
Arguments Throws {A} error.
Arguments Halts {A}.

(** A piece of the script: the calls it makes and where it leaves the
    control. *)
Definition M (A : Type) : Type := (list Action * Step A)%type.

Definition ret {A : Type} (a : A) : M A := ([], Continues a).

Definition bind {A B : Type} (m : M A) (f : A -> M B) : M B :=
  match m with
  | (calls, Continues a) => let (calls', step) := f a in ((calls ++ calls')%list, step)
  | (calls, Throws error) => (calls, Throws error)
  | (calls, Halts) => (calls, Halts)
  end.

Notation "x <- m ;; k" := (bind m (fun x => k))
  (at level 61, m at next level, right associativity).
Notation "m ;;; k" := (bind m (fun _ => k))
  (at level 61, right associativity).

(** [try { m } catch (error) { handler }]. *)
Definition tryCatch {A : Type} (m : M A) (handler : string -> M A) : M A :=
  match m with
  | (calls, Throws error) =>
      let (calls', step) := handler error in ((calls ++ calls')%list, step)
  | _ => m
  end.

Definition throw {A : Type} (error : string) : M A := ([], Throws error).

(** A call that returns or throws at once. *)
Definition call {A : Type} (a : Action) (answer : Signhost.Outcome A) : M A :=
  ([a], match answer with
        | Signhost.Returned value => Continues value
        | Signhost.Threw error => Throws error
        end).

(** [await] on a call of the service. *)
Definition await {A : Type} (a : Action) (answer : Settled A) : M A :=
  ([a], match answer with
        | Resolved value => Continues value
        | Failed error => Throws error
        | Unsettled => Halts
        end).

(** [await] on the promise of [generateContractPdf]. *)
Definition awaitPdf (p : Promise) : M (list Byte.byte) :=
  ([], match p with
       | Fulfilled buffer => Continues buffer
       | Rejected reason => Throws reason
       | Pending => Halts
       end).

(** [process.exit(code)]. *)
Definition exit {A : Type} (code : nat) : M A := ([Exit code], Halts).

Definition nl : string := String (ascii_of_nat 10) EmptyString.

Section Script.

Variable canvas : Canvas.
Variable document : list Op -> Run.
Variable world : World.
Variable CONFIG : Config.
Variable SAMPLE_CONTRACT : ContractData.
Variable SAMPLE_SIGNER : Signer.

Definition ensureOutputDir : M unit :=
  if negb (existsSync world (OUTPUT_DIR CONFIG))
  then call (MkdirSync (OUTPUT_DIR CONFIG)) (mkdirSync world (OUTPUT_DIR CONFIG))
  else ret tt.

(** The input that [main] passes to [createTransaction]. *)
Definition transactionInput : Signhost.TransactionInput.t :=
  {| Signhost.TransactionInput.signers :=
       [ {| Signhost.SignerInput.email := email SAMPLE_SIGNER;
            Signhost.SignerInput.name := name SAMPLE_SIGNER;
            Signhost.SignerInput.mobile := Some (mobile SAMPLE_SIGNER);
            Signhost.SignerInput.signRequestMessage :=
              Some ("Dear " ++ name SAMPLE_SIGNER ++ "," ++ nl ++ nl
                      ++ "Please review and sign the attached Service Agreement."
                      ++ nl ++ nl ++ "Best regards," ++ nl
                      ++ providerName SAMPLE_CONTRACT);
            Signhost.SignerInput.daysToRemind := Some (JsFin 3);
            Signhost.SignerInput.requireSmsVerification := Some false;
            Signhost.SignerInput.requireEmailVerification := Some true;
            Signhost.SignerInput.returnUrl := None;
            Signhost.SignerInput.reference := None |} ];
     Signhost.TransactionInput.reference := Some (contractNumber SAMPLE_CONTRACT);
     Signhost.TransactionInput.postbackUrl :=
       if String.eqb (POSTBACK_URL CONFIG) "" then None
       else Some (POSTBACK_URL CONFIG);
     Signhost.TransactionInput.sendEmailNotifications := Some true;
     Signhost.TransactionInput.daysToExpire := Some (JsFin 30) |}.

(** [transaction.Signers[0]], whose fields are read next: reading them
    throws when the transaction has no signer. *)
Definition firstSigner (transaction : Signhost.SignhostTransaction)
  : M Signhost.SignhostSigner :=
  match Signhost.Signers transaction with
  | signer :: _ => ret signer
  | [] => throw Signhost.typeError
  end.

Definition checkTransactionStatus (transactionId : string) : M unit :=
  tryCatch
    (transaction <- await (GetTransaction transactionId)
                      (getTransaction world transactionId) ;;
     if Signhost.isCode (Signhost.Status transaction) Signhost.SIGNED
     then
       signedPdf <- await (DownloadDocument transactionId "contract.pdf")
                      (downloadDocument world transactionId "contract.pdf") ;;
       let signedPath :=
         pathJoin world (OUTPUT_DIR CONFIG)
           (contractNumber SAMPLE_CONTRACT ++ "-SIGNED.pdf") in
       call (WriteFileSync signedPath signedPdf)
         (writeFileSync world signedPath signedPdf) ;;;
       receipt <- await (DownloadReceipt transactionId)
                    (downloadReceipt world transactionId) ;;
       let receiptPath :=
         pathJoin world (OUTPUT_DIR CONFIG)
           (contractNumber SAMPLE_CONTRACT ++ "-RECEIPT.pdf") in
       call (WriteFileSync receiptPath receipt)
         (writeFileSync world receiptPath receipt)
     else ret tt)
    (fun _ => ret tt).

(** Steps 2 to 6 of [main]: what follows the return of the demo mode. *)
Definition signingSteps (pdfBuffer : list Byte.byte) : M unit :=
  (* Steps 2 and 3: the service and the transaction *)
  transaction <- await (CreateTransaction transactionInput)
                   (createTransaction world transactionInput) ;;
  let transactionId := Signhost.Id transaction in
  signer <- firstSigner transaction ;;
  let signerId := Signhost.SignerId signer in
  (* Step 4: the place of the signature *)
  await (UploadFileMetadata transactionId fileId signerId displayName
           (Some signatureLocation))
    (uploadFileMetadata world transactionId fileId signerId displayName
       (Some signatureLocation)) ;;;
  (* Step 5: the PDF *)
  await (UploadFile transactionId fileId pdfBuffer)
    (uploadFile world transactionId fileId pdfBuffer) ;;;
  (* Step 6: start *)
  await (StartTransaction transactionId)
    (startTransaction world transactionId) ;;;
  await (Sleep 5000) (Resolved tt) ;;;
  checkTransactionStatus transactionId.

Definition main : M unit :=
  (if negb (DEMO_MODE CONFIG)
      && String.eqb (SIGNHOST_API_KEY CONFIG) "YOUR_API_KEY_HERE"
   then exit 1 else ret tt) ;;;
  tryCatch
    ((* Step 1: generate the PDF and save it *)
     pdfBuffer <- awaitPdf (generateContractPdf canvas document SAMPLE_CONTRACT
                              pdfOptions) ;;
     ensureOutputDir ;;;
     let localPdfPath :=
       pathJoin world (OUTPUT_DIR CONFIG)
         (contractNumber SAMPLE_CONTRACT ++ ".pdf") in
     call (WriteFileSync localPdfPath pdfBuffer)
       (writeFileSync world localPdfPath pdfBuffer) ;;;
     if DEMO_MODE CONFIG then ret tt else signingSteps pdfBuffer)
    (fun _ => exit 1).

End Script.

(** ** Observations on the calls *)


(** The calls of the check of the status, after its first. *)
Definition isStatusCall (a : Action) : bool :=
  match a with
  | DownloadDocument _ _ | DownloadReceipt _ | WriteFileSync _ _ => true
  | _ => false
  end.

Definition isExit (a : Action) : bool :=
  match a with
  | Exit _ => true
  | _ => false
  end.

(** A world in which every call succeeds and the transaction is signed. *)
Definition agreeableWorld : World :=
  let transaction :=
    {| Signhost.Id := "b10ae331"; Signhost.Status := JsFin 30;
       Signhost.Signers := [ {| Signhost.SignerId := "signer-1";
                                Signhost.SignUrl := "https://view.signhost.com/sign/1" |} ] |} in
  {| existsSync := fun _ => false;
     mkdirSync := fun _ => Signhost.Returned tt;
     writeFileSync := fun _ _ => Signhost.Returned tt;
     pathJoin := fun dir file => dir ++ "/" ++ file;
     createTransaction := fun _ => Resolved transaction;
     uploadFileMetadata := fun _ _ _ _ _ => Resolved tt;
     uploadFile := fun _ _ _ => Resolved tt;
     startTransaction := fun _ => Resolved transaction;
     getTransaction := fun _ => Resolved transaction;
     downloadDocument := fun _ _ => Resolved [b2];
     downloadReceipt := fun _ => Resolved [b1] |}.

(** The same world, in which the upload of the PDF fails. *)
Definition uploadFailingWorld : World :=
  {| existsSync := existsSync agreeableWorld;
     mkdirSync := mkdirSync agreeableWorld;
     writeFileSync := writeFileSync agreeableWorld;
     pathJoin := pathJoin agreeableWorld;
     createTransaction := createTransaction agreeableWorld;
     uploadFileMetadata := uploadFileMetadata agreeableWorld;
     uploadFile := fun _ _ _ => Failed "Failed to upload file: 413";
     startTransaction := startTransaction agreeableWorld;
     getTransaction := getTransaction agreeableWorld;
     downloadDocument := downloadDocument agreeableWorld;
     downloadReceipt := downloadReceipt agreeableWorld |}.

Definition liveConfig : Config :=
  {| SIGNHOST_API_KEY := "k"; SIGNHOST_APP_KEY := "a";
     SIGNHOST_SHARED_SECRET := "s3cret"; POSTBACK_URL := "";
     OUTPUT_DIR := "./output"; DEMO_MODE := false |}.

Definition demoConfig : Config :=
  {| SIGNHOST_API_KEY := "YOUR_API_KEY_HERE"; SIGNHOST_APP_KEY := "";
     SIGNHOST_SHARED_SECRET := ""; POSTBACK_URL := "";
     OUTPUT_DIR := "./output"; DEMO_MODE := true |}.

Definition sampleSigner : Signer :=
  {| email := "signer@example.com"; name := "Sam"; mobile := "" |}.

End Demo.

(** ** Further values for the examples *)

(** Runs of the document: an end followed by a chunk and an error; chunks
    and nothing else. *)
Definition failsAfterCompletion (_ : list Op) : Run :=
  {| whileDrawing := [EvData [b1]]; thrown := None;
     afterEnd := [EvEnd; EvData [b2]; EvError "write after end"] |}.

Definition stalls (_ : list Op) : Run :=
  {| whileDrawing := [EvData [b1]]; thrown := None; afterEnd := [EvData [b2]] |}.

(** A canvas on which every text is a thousand points high. *)
Definition tallCanvas : Canvas :=
  {| currentLineHeight := fun _ size => size;
     textFlow := fun _ _ _ _ y _ _ => (y + 1000)%Q |}.

(** A postback whose checksum is the digest of the example platform in
    upper case, and the same postback with a number for a checksum. *)
Definition signedPostback : Signhost.JsValue :=
  Signhost.VObject
    [ ("Id", Signhost.VString "b10ae331-af78-4e79-a39e-5b64693b6b68");
      ("Status", Signhost.VNumber (JsFin 30));
      ("Checksum", Signhost.VString "DA39A3EE5E6B4B0D3255BFEF95601890AFD80709") ].

Definition numericChecksumPostback : Signhost.JsValue :=
  Signhost.VObject
    [ ("Id", Signhost.VString "b10ae331-af78-4e79-a39e-5b64693b6b68");
      ("Status", Signhost.VNumber (JsFin 30));
      ("Checksum", Signhost.VNumber (JsFin 1)) ].

(* ====================================================================== *)
(** * Facts on strings *)
(* ====================================================================== *)

Module StrFacts.

Lemma ends_with_has_char c s : ends_with c s = true -> has_char c s = true.
Proof.
  induction s as [|a s IH]; simpl; [discriminate|].
  destruct s as [|b s'].
  - intros ->. reflexivity.
  - intros H. rewrite (IH H). apply orb_true_r.
Qed.

Lemma prefix_has_char c tok s :
  prefix tok s = true -> has_char c tok = true -> has_char c s = true.
Proof.
  revert s. induction tok as [|a tok IH]; intros s Hp Hc;
    [discriminate Hc|].
  destruct s as [|b s]; simpl in Hp; [discriminate Hp|].
  destruct (ascii_dec a b) as [->|]; [|discriminate Hp].
  simpl in *.
  destruct (Ascii.eqb b c); [reflexivity|]. simpl in *.
  now apply IH.
Qed.

(** A token that starts with [c] does not start inside, nor at the head
    of, a text without [c]. *)
Lemma occurrences_skip_head c tok a s :
  starts_with c tok = true -> has_char c a = false ->
  occurrences tok (a ++ s) = occurrences tok s.
Proof.
  intros Hs. induction a as [|x a IH]; simpl; [reflexivity|].
  intros H. apply orb_false_elim in H as [Hx Ha].
  rewrite (IH Ha).
  destruct tok as [|t tok]; [discriminate|]. simpl in Hs.
  destruct (ascii_dec t x) as [->|]; [|reflexivity].
  apply Ascii.eqb_eq in Hs. subst. rewrite Ascii.eqb_refl in Hx. discriminate.
Qed.

Lemma prefix_app_tail c tok u t :
  ends_with c tok = true -> has_char c t = false ->
  prefix tok (u ++ t) = prefix tok u.
Proof.
  intros He Ht. revert u.
  induction tok as [|a tok IH]; intros u; [discriminate|].
  destruct u as [|b u].
  - simpl (EmptyString ++ t). simpl (prefix _ EmptyString).
    destruct (prefix (String a tok) t) eqn:E; [|reflexivity].
    apply (prefix_has_char c) in E; [congruence|].
    now apply ends_with_has_char.
  - simpl. destruct (ascii_dec a b); [|reflexivity].
    destruct tok as [|a' tok']; [destruct u, t; reflexivity|].
    apply IH. exact He.
Qed.

Lemma occurrences_no_last c tok t :
  ends_with c tok = true -> has_char c t = false -> occurrences tok t = 0.
Proof.
  intros He. assert (Hc := ends_with_has_char _ _ He).
  assert (Hne : prefix tok EmptyString = false)
    by (destruct tok; [discriminate|reflexivity]).
  induction t as [|x t IH]; intros Ht.
  - cbn [occurrences]. now rewrite Hne.
  - cbn [occurrences].
    destruct (prefix tok (String x t)) eqn:E.
    + apply (prefix_has_char c) in E; congruence.
    + simpl in Ht. apply orb_false_elim in Ht as [_ Ht]. now rewrite IH.
Qed.

(** A token that ends with [c] does not reach into a text without [c]. *)
Lemma occurrences_skip_tail c tok s t :
  ends_with c tok = true -> has_char c t = false ->
  occurrences tok (s ++ t) = occurrences tok s.
Proof.
  intros He Ht.
  assert (Hne : prefix tok EmptyString = false)
    by (destruct tok; [discriminate|reflexivity]).
  induction s as [|x s IH].
  - cbn [occurrences append]. rewrite Hne. now apply (occurrences_no_last c).
  - change (String x s ++ t) with (String x (s ++ t)).
    cbn [occurrences]. rewrite IH.
    change (String x (s ++ t)) with (String x s ++ t).
    now rewrite (prefix_app_tail c).
Qed.

Lemma occurrences_no_first c tok t :
  starts_with c tok = true -> has_char c t = false -> occurrences tok t = 0.
Proof.
  intros Hs Ht.
  assert (E : t = t ++ EmptyString).
  { clear. induction t; simpl; congruence. }
  rewrite E, (occurrences_skip_head c tok t EmptyString Hs Ht).
  destruct tok; [discriminate|reflexivity].
Qed.


End StrFacts.

(* ====================================================================== *)
(** * Facts on the formatting of numbers *)
(* ====================================================================== *)

Module JsNumFacts.

Lemma is_digit_digit k : is_digit (digit k) = true.
Proof.
  destruct k as [|p]; [reflexivity|].
  do 4 (try destruct p as [p|p|]); reflexivity.
Qed.

Lemma uint_digits_digits u : digitsOnly (uint_digits u).
Proof.
  induction u; simpl; constructor; auto.
Qed.






Lemma fractionDigits_shape f :
  digitsOnly (fractionDigits f) /\ 2 <= length (fractionDigits f) <= 3.
Proof.
  unfold fractionDigits.
  destruct (f mod 10 =? 0)%N; simpl; split; try lia;
    repeat constructor; apply is_digit_digit.
Qed.







(** Formatting does not tell apart two representations of one number. *)
Lemma toLocaleString_num_eq a b : num_eq a b -> toLocaleString a = toLocaleString b.
Proof.
  destruct a as [|na| |p], b as [|nb| |q]; unfold num_eq; intros H;
    try (inversion H; reflexivity).
  unfold toLocaleString.
  assert (Hs : (Qnum p <? 0)%Z = (Qnum q <? 0)%Z).
  { unfold Qeq in H. destruct (Z.ltb_spec (Qnum p) 0), (Z.ltb_spec (Qnum q) 0);
      try reflexivity; exfalso; nia. }
  assert (Ht : thousandths p = thousandths q).
  { unfold thousandths. now rewrite H. }
  now rewrite Hs, Ht.
Qed.

(** Every character of a formatted number is plain, so none is a brace. *)
Lemma group3_Forall (P : ascii -> Prop) : P "."%char ->
  forall n ds, length ds <= n -> Forall P ds -> Forall P (group3 ds).
Proof.
  intros Hdot. induction n as [|n IH]; intros ds Hn Hd.
  - destruct ds; [constructor|simpl in Hn; lia].
  - destruct ds as [|a [|b [|c [|e rest]]]]; try exact Hd.
    change (group3 (a :: b :: c :: e :: rest))
      with (a :: b :: c :: "."%char :: group3 (e :: rest)).
    inversion Hd as [|? ? Ha Hd1]; subst.
    inversion Hd1 as [|? ? Hb Hd2]; subst.
    inversion Hd2 as [|? ? Hc Hd3]; subst.
    repeat constructor; auto. apply IH; [simpl in *; lia|exact Hd3].
Qed.

Lemma is_digit_plain c : is_digit c = true -> plain c = true.
Proof. unfold plain. now intros ->. Qed.

Lemma formatThousandths_plain n :
  Forall (fun c => plain c = true) (formatThousandths n).
Proof.
  unfold formatThousandths, integerDigits.
  apply Forall_app. split.
  - apply Forall_rev.
    apply (group3_Forall (fun c => plain c = true) eq_refl _ _ (le_n _)).
    apply Forall_rev. eapply Forall_impl; [|apply uint_digits_digits].
    intros c. apply is_digit_plain.
  - constructor; [reflexivity|].
    eapply Forall_impl; [|apply fractionDigits_shape].
    intros c. apply is_digit_plain.
Qed.

Lemma has_char_plain c l :
  plain c = false -> Forall (fun a => plain a = true) l ->
  has_char c (string_of_list_ascii l) = false.
Proof.
  intros Hc. induction 1 as [|a l Ha _ IH]; [reflexivity|].
  simpl. rewrite IH, orb_false_r.
  destruct (Ascii.eqb_spec a c); [congruence|reflexivity].
Qed.

Lemma toLocaleString_no_brace x c :
  c = "{"%char \/ c = "}"%char -> has_char c (toLocaleString x) = false.
Proof.
  intros Hc.
  assert (Hp : plain c = false) by (destruct Hc; subst; reflexivity).
  destruct x as [|[|]| |q]; try (destruct Hc; subst; reflexivity).
  unfold toLocaleString. apply has_char_plain; [exact Hp|].
  apply Forall_app. split; [|apply formatThousandths_plain].
  destruct (Qnum q <? 0)%Z; repeat constructor.
Qed.

End JsNumFacts.

Import StrFacts JsNumFacts.
Local Open Scope list_scope.


(* ====================================================================== *)
(** * Facts on the layout *)
(* ====================================================================== *)



Lemma texts_app l1 l2 : texts (l1 ++ l2) = texts l1 ++ texts l2.
Proof. apply flat_map_app. Qed.

(** Unfolding of the canvas calls on the fields of the document. *)
Ltac run :=
  cbn [ops docX docY page docFont docFontSize docFill text emit setX setY
       fontSize font fillColor moveTo lineTo stroke addPage moveDown].

Ltac run_in H :=
  cbn [ops docX docY page docFont docFontSize docFill text emit setX setY
       fontSize font fillColor moveTo lineTo stroke addPage moveDown] in H.

Ltac flatten_log := rewrite <- ?app_assoc; cbn [app].

Section LayoutFacts.

Variable canvas : Canvas.

(** ** The items of a section *)

(** What the loop over the items leaves unchanged, and what it appends:
    texts only, numbered from the counter, in the fill colour it is
    entered with. *)
Lemma renderItems_spec its : forall sectionNumber itemNumber d,
  let d' := renderItems canvas sectionNumber itemNumber its d in
  page d' = page d /\ docFill d' = docFill d /\ docFont d' = docFont d
  /\ docFontSize d' = docFontSize d
  /\ exists l,
       ops d' = ops d ++ l
       /\ texts l = numberedItems sectionNumber itemNumber its
       /\ Forall (fun o => isAddPage o = false) l
       /\ Forall (paintedWith (docFill d)) l.
Proof.
  induction its as [|item rest IH]; intros n k d; cbn zeta.
  - repeat split; auto. exists []. rewrite app_nil_r. repeat split; constructor.
  - cbn [renderItems].
    destruct (IH n (S k)
                (moveDown canvas (1 # 2)
                   (text canvas (itemLabel n k ++ "  " ++ item)%string None itemOptions d)))
      as (Hp & Hf & Hfo & Hs & l & Hl & Ht & Ha & Hc).
    rewrite Hp, Hf, Hfo, Hs, Hl. clear Hp Hf Hfo Hs Hl. run_in Hc. run.
    repeat split; auto.
    eexists. split; [flatten_log; reflexivity|].
    repeat split.
    + cbn [texts flat_map textOf app]. fold (texts l). rewrite Ht. reflexivity.
    + constructor; [reflexivity|exact Ha].
    + constructor; [reflexivity|exact Hc].
Qed.

(** ** One section *)

Lemma renderSection_spec this sectionNumber section d :
  let d' := renderSection canvas this sectionNumber section d in
  let brk := Qgtb (docY d) (height (page d) - margin (options this) - 100) in
  page d' = page d /\ docFill d' = docFill d
  /\ exists l,
       ops d' = ops d ++ (if brk then [OpAddPage] else [])
                  ++ OpText (natToString sectionNumber ++ ". " ++ title section)
                       (if brk then Margins.left (margins (page d)) else docX d)
                       (if brk then Margins.top (margins (page d)) else docY d)
                       "Helvetica-Bold" 12 (docFill d) noOptions
                  :: l
       /\ texts l = numberedItems sectionNumber 1 (items section)
       /\ Forall (fun o => isAddPage o = false) l
       /\ Forall (paintedWith (docFill d)) l.
Proof.
  cbn zeta. unfold renderSection.
  match goal with
  | |- context [renderItems canvas ?n ?k ?its ?d0] =>
      destruct (renderItems_spec its n k d0)
        as (Hp & Hf & _ & _ & l & Hl & Ht & Ha & Hc)
  end.
  run. rewrite Hp, Hf, Hl. clear Hp Hf Hl. run_in Hc. run.
  destruct (Qgtb (docY d) (height (page d) - margin (options this) - 100));
    run_in Hc; run; (repeat split; auto); exists l; flatten_log; auto.
Qed.

(** ** All sections *)

Lemma renderSectionsFrom_spec this sections : forall sectionNumber d,
  let d' := renderSectionsFrom canvas this sectionNumber sections d in
  page d' = page d /\ docFill d' = docFill d
  /\ exists l,
       ops d' = ops d ++ l
       /\ texts l = numberedSections sectionNumber sections
       /\ Forall (paintedWith (docFill d)) l.
Proof.
  induction sections as [|section rest IH]; intros n d; cbn zeta.
  - repeat split; auto. exists []. rewrite app_nil_r. repeat split; constructor.
  - cbn [renderSectionsFrom].
    destruct (IH (S n) (renderSection canvas this n section d))
      as (Hp & Hf & l & Hl & Ht & Hc).
    destruct (renderSection_spec this n section d)
      as (Hp1 & Hf1 & l1 & Hl1 & Ht1 & _ & Hc1).
    rewrite Hp, Hf, Hl, Hp1, Hf1, Hl1. rewrite Hf1 in Hc.
    repeat split; auto.
    eexists. split; [rewrite <- app_assoc; reflexivity|]. split.
    + rewrite !texts_app.
      cbn [numberedSections length seq combine flat_map fst snd].
      fold (numberedSections (S n) rest). rewrite <- Ht.
      destruct (Qgtb _ _); cbn [texts flat_map textOf app]; fold (texts l1);
        now rewrite Ht1.
    + apply Forall_app. split; [|exact Hc].
      apply Forall_app. split; [destruct (Qgtb _ _); repeat constructor|].
      constructor; [reflexivity|exact Hc1].
Qed.

(** ** Header and preamble *)

Lemma renderHeader_spec this d :
  let d' := renderHeader canvas this d in
  page d' = page d /\ docFill d' = black
  /\ exists y2,
       ops d' = ops d ++
         [ OpText "SERVICE AGREEMENT" (docX d) (docY d) "Helvetica-Bold" 20
             (docFill d) centered;
           OpText ("Contract No: " ++ contractNumber (data this)) (docX d) y2
             "Helvetica" 10 grey centered ].
Proof.
  cbn zeta. unfold renderHeader. run. repeat split.
  eexists. flatten_log. reflexivity.
Qed.

(** The texts of the preamble, in the order drawn. *)
Lemma renderPreamble_spec this d :
  let d' := renderPreamble canvas this d in
  page d' = page d /\ docFill d' = docFill d
  /\ exists l,
       ops d' = ops d ++ l
       /\ texts l = preambleTexts (data this)
       /\ Forall (paintedWith (docFill d)) l.
Proof.
  cbn zeta. unfold renderPreamble. run. repeat split.
  eexists. flatten_log. split; [reflexivity|]. split; [reflexivity|].
  repeat constructor.
Qed.

(** ** Signature block *)

Lemma signatureLead_spec this d :
  let d' := signatureLead canvas this d in
  let brk := Qgtb (docY d) (height (page d) - margin (options this) - 400) in
  page d' = page d /\ docFill d' = docFill d
  /\ exists x y,
       ops d' = ops d ++ (if brk then [OpAddPage] else [])
         ++ [ OpText witnessText x y "Helvetica" 11 (docFill d) justified ].
Proof.
  cbn zeta. unfold signatureLead.
  destruct (Qgtb (docY d) (height (page d) - margin (options this) - 400));
    run; repeat split; do 2 eexists; flatten_log; reflexivity.
Qed.

Lemma renderSignatureRow_spec this x y w label name marker d :
  docFill d = black ->
  let d' := renderSignatureRow canvas this x y w label name marker d in
  page d' = page d /\ docFill d' = black /\ docX d' = x
  /\ docFont d' = "Helvetica" /\ docFontSize d' = 10%Q
  /\ exists row,
       ops d' = ops d ++ row
       /\ Forall2 opEq row
            (specSignatureRow (includeSignatureMarkers (options this))
               x y w label name marker).
Proof.
  intros Hb. cbn zeta. unfold renderSignatureRow, specSignatureRow.
  destruct (includeSignatureMarkers (options this)); run; rewrite ?Hb;
    (repeat split; auto); eexists; flatten_log; (split; [reflexivity|]);
    repeat constructor; cbn [optQeq textWidth indent align lineGap withWidth noOptions];
    try reflexivity; try ring.
Qed.

Lemma opEq_texts a b : Forall2 opEq a b -> texts a = texts b.
Proof.
  induction 1 as [|x y a b H _ IH]; [reflexivity|].
  cbn [texts flat_map]. fold (texts a) (texts b). rewrite IH.
  destruct x, y; cbn [opEq] in H; try contradiction; try reflexivity.
  destruct H as [-> _]. reflexivity.
Qed.

Lemma docY_setY v d : docY (setY v d) = v.
Proof. reflexivity. Qed.

Lemma page_setY v d : page (setY v d) = page d.
Proof. reflexivity. Qed.

Lemma docFill_setY v d : docFill (setY v d) = docFill d.
Proof. reflexivity. Qed.

Lemma ops_setY v d : ops (setY v d) = ops d.
Proof. reflexivity. Qed.

Lemma signatureRows_spec this d :
  docFill d = black ->
  let d' := signatureRows canvas this d in
  let leftX := Margins.left (margins (page d)) in
  let signatureWidth :=
    ((width (page d) - Margins.left (margins (page d))
      - Margins.right (margins (page d))) * (3 # 4))%Q in
  let markers := includeSignatureMarkers (options this) in
  page d' = page d /\ docFill d' = black
  /\ docY d' = (docY d + 170 + 140)%Q
  /\ exists clientRow providerRow,
       ops d' = ops d ++ clientRow ++ providerRow
       /\ Forall2 opEq clientRow
            (specSignatureRow markers leftX (docY d) signatureWidth
               "CLIENT" (clientName (data this)) clientMarker)
       /\ Forall2 opEq providerRow
            (specSignatureRow markers leftX (docY d + 170)%Q signatureWidth
               "PROVIDER" (providerName (data this)) providerMarker).
Proof.
  intros Hb. cbv zeta. unfold signatureRows. cbv zeta.
  set (leftX := Margins.left (margins (page d))).
  set (w := ((width (page d) - leftX - Margins.right (margins (page d))) * (3 # 4))%Q).
  destruct (renderSignatureRow_spec this leftX (docY d) w "CLIENT"
              (clientName (data this)) clientMarker d Hb)
    as (Hp1 & Hf1 & _ & _ & _ & row1 & Hr1 & He1).
  revert Hp1 Hf1 Hr1.
  generalize (renderSignatureRow canvas this leftX (docY d) w "CLIENT"
                (clientName (data this)) clientMarker d).
  intros d1 Hp1 Hf1 Hr1.
  rewrite docY_setY.
  assert (Hb2 : docFill (setY (docY d + 170)%Q d1) = black)
    by (rewrite docFill_setY; exact Hf1).
  destruct (renderSignatureRow_spec this leftX (docY d + 170)%Q w "PROVIDER"
              (providerName (data this)) providerMarker _ Hb2)
    as (Hp2 & Hf2 & _ & _ & _ & row2 & Hr2 & He2).
  revert Hp2 Hf2 Hr2.
  generalize (renderSignatureRow canvas this leftX (docY d + 170)%Q w "PROVIDER"
                (providerName (data this)) providerMarker
                (setY (docY d + 170)%Q d1)).
  intros d2 Hp2 Hf2 Hr2.
  rewrite ?page_setY, ?docFill_setY, ?docY_setY, ?ops_setY in *.
  rewrite Hp2, Hf2, Hr2, Hp1, Hr1. repeat split; auto.
  exists row1, row2. rewrite <- app_assoc. auto.
Qed.

(** The geometry of a row and of the two rows, from any state. *)
Lemma renderSignatureRow_geometry this x y w label name marker d :
  let d' := renderSignatureRow canvas this x y w label name marker d in
  page d' = page d
  /\ exists row,
       ops d' = ops d ++ row
       /\ Forall2 sameGeometry row
            (specSignatureRow (includeSignatureMarkers (options this))
               x y w label name marker).
Proof.
  cbv zeta. unfold renderSignatureRow, specSignatureRow.
  destruct (includeSignatureMarkers (options this)); run;
    (split; [reflexivity|]); eexists; flatten_log; (split; [reflexivity|]);
    repeat constructor; cbn [optQeq textWidth indent align lineGap withWidth noOptions];
    try reflexivity; try ring.
Qed.

Lemma signatureRows_geometry this d :
  let d' := signatureRows canvas this d in
  let leftX := Margins.left (margins (page d)) in
  let signatureWidth :=
    ((width (page d) - Margins.left (margins (page d))
      - Margins.right (margins (page d))) * (3 # 4))%Q in
  let markers := includeSignatureMarkers (options this) in
  docY d' = (docY d + 170 + 140)%Q
  /\ exists clientRow providerRow,
       ops d' = ops d ++ clientRow ++ providerRow
       /\ Forall2 sameGeometry clientRow
            (specSignatureRow markers leftX (docY d) signatureWidth
               "CLIENT" (clientName (data this)) clientMarker)
       /\ Forall2 sameGeometry providerRow
            (specSignatureRow markers leftX (docY d + 170)%Q signatureWidth
               "PROVIDER" (providerName (data this)) providerMarker).
Proof.
  cbv zeta. unfold signatureRows. cbv zeta.
  set (leftX := Margins.left (margins (page d))).
  set (w := ((width (page d) - leftX - Margins.right (margins (page d))) * (3 # 4))%Q).
  destruct (renderSignatureRow_geometry this leftX (docY d) w "CLIENT"
              (clientName (data this)) clientMarker d)
    as (Hp1 & row1 & Hr1 & He1).
  revert Hp1 Hr1.
  generalize (renderSignatureRow canvas this leftX (docY d) w "CLIENT"
                (clientName (data this)) clientMarker d).
  intros d1 Hp1 Hr1.
  rewrite !docY_setY.
  destruct (renderSignatureRow_geometry this leftX (docY d + 170)%Q w "PROVIDER"
              (providerName (data this)) providerMarker
              (setY (docY d + 170)%Q d1))
    as (Hp2 & row2 & Hr2 & He2).
  revert Hp2 Hr2.
  generalize (renderSignatureRow canvas this leftX (docY d + 170)%Q w "PROVIDER"
                (providerName (data this)) providerMarker
                (setY (docY d + 170)%Q d1)).
  intros d2 Hp2 Hr2.
  rewrite ?page_setY, ?docY_setY, ?ops_setY in *.
  rewrite Hr2, Hr1. split; [reflexivity|].
  exists row1, row2. rewrite <- app_assoc. auto.
Qed.

(** The rows draw no page, whatever the fill colour they start with. *)
Lemma signatureRows_noAddPage this d :
  exists l, ops (signatureRows canvas this d) = ops d ++ l
            /\ Forall (fun o => isAddPage o = false) l.
Proof.
  unfold signatureRows, renderSignatureRow.
  destruct (includeSignatureMarkers (options this)); run; flatten_log;
    eexists; (split; [reflexivity|]); repeat constructor.
Qed.

(** ** The document before the signature rows *)

Lemma beforeRows_spec this :
  let d := beforeRows canvas this in
  page d = page (initialDoc this) /\ docFill d = black
  /\ exists y2 l,
       ops d =
         OpText "SERVICE AGREEMENT" (margin (options this)) (margin (options this))
           "Helvetica-Bold" 20 black centered
         :: OpText ("Contract No: " ++ contractNumber (data this))
              (margin (options this)) y2 "Helvetica" 10 grey centered
         :: l
       /\ texts l = preambleTexts (data this)
                      ++ numberedSections 1 (buildSections this)
                      ++ [witnessText]
       /\ Forall (paintedWith black) l.
Proof.
  cbn zeta. unfold beforeRows.
  destruct (renderHeader_spec this (initialDoc this)) as (Hp1 & Hf1 & y2 & Ho1).
  remember (renderHeader canvas this (initialDoc this)) as d1 eqn:E1. clear E1.
  destruct (renderPreamble_spec this d1) as (Hp2 & Hf2 & l2 & Ho2 & Ht2 & Hc2).
  remember (renderPreamble canvas this d1) as d2 eqn:E2. clear E2.
  unfold renderSections.
  destruct (renderSectionsFrom_spec this (buildSections this) 1 d2)
    as (Hp3 & Hf3 & l3 & Ho3 & Ht3 & Hc3).
  remember (renderSectionsFrom canvas this 1 (buildSections this) d2) as d3 eqn:E3.
  clear E3.
  destruct (signatureLead_spec this d3) as (Hp4 & Hf4 & x4 & y4 & Ho4).
  remember (signatureLead canvas this d3) as d4 eqn:E4. clear E4.
  rewrite Hf3, Hf2, Hf1 in Hf4. rewrite Hf2, Hf1 in Hf3, Hc3.
  rewrite Hf1 in Hf2, Hc2. rewrite Hf3 in Ho4.
  split; [congruence|]. split; [exact Hf4|].
  exists y2. eexists. split.
  - rewrite Ho4, Ho3, Ho2, Ho1. cbn [initialDoc newDocument ops docX docY docFill app].
    fold black. reflexivity.
  - split.
    + rewrite !texts_app, Ht2, Ht3.
      destruct (Qgtb _ _); cbn [texts flat_map textOf app]; reflexivity.
    + repeat (apply Forall_app; split); auto.
      * destruct (Qgtb _ _); repeat constructor.
      * repeat constructor.
Qed.

(** ** The marker option does not reach the layout before the rows *)



Lemma draw_rows this :
  draw canvas this = signatureRows canvas this (beforeRows canvas this).
Proof. reflexivity. Qed.

End LayoutFacts.

(** ** The layout reads nothing but the data, the options and the canvas *)

Section SameAnswers.

Variables c1 c2 : Canvas.
Hypothesis answers : sameAnswers c1 c2.

Lemma text_sameAnswers content at_ o d :
  text c1 content at_ o d = text c2 content at_ o d.
Proof.
  unfold text. destruct answers as [_ H]. now rewrite H.
Qed.

Lemma moveDown_sameAnswers lines d : moveDown c1 lines d = moveDown c2 lines d.
Proof.
  unfold moveDown. destruct answers as [H _]. now rewrite H.
Qed.

Lemma renderItems_sameAnswers its : forall n k d,
  renderItems c1 n k its d = renderItems c2 n k its d.
Proof.
  induction its as [|item rest IH]; intros n k d; [reflexivity|].
  cbn [renderItems]. now rewrite IH, text_sameAnswers, moveDown_sameAnswers.
Qed.

Lemma renderSection_sameAnswers this n section d :
  renderSection c1 this n section d = renderSection c2 this n section d.
Proof.
  unfold renderSection.
  now rewrite renderItems_sameAnswers, !text_sameAnswers, !moveDown_sameAnswers.
Qed.

Lemma renderSectionsFrom_sameAnswers this sections : forall n d,
  renderSectionsFrom c1 this n sections d = renderSectionsFrom c2 this n sections d.
Proof.
  induction sections as [|section rest IH]; intros n d; [reflexivity|].
  cbn [renderSectionsFrom]. now rewrite IH, renderSection_sameAnswers.
Qed.

Lemma renderSignatureRow_sameAnswers this x y w label name marker d :
  renderSignatureRow c1 this x y w label name marker d
  = renderSignatureRow c2 this x y w label name marker d.
Proof.
  unfold renderSignatureRow. now rewrite !text_sameAnswers.
Qed.

Lemma renderHeader_sameAnswers this d :
  renderHeader c1 this d = renderHeader c2 this d.
Proof.
  unfold renderHeader. now rewrite !text_sameAnswers, !moveDown_sameAnswers.
Qed.

Lemma renderPreamble_sameAnswers this d :
  renderPreamble c1 this d = renderPreamble c2 this d.
Proof.
  unfold renderPreamble. now rewrite !text_sameAnswers, !moveDown_sameAnswers.
Qed.

Lemma renderSections_sameAnswers this d :
  renderSections c1 this d = renderSections c2 this d.
Proof. apply renderSectionsFrom_sameAnswers. Qed.

Lemma renderSignatureBlock_sameAnswers this d :
  renderSignatureBlock c1 this d = renderSignatureBlock c2 this d.
Proof.
  unfold renderSignatureBlock, signatureRows, signatureLead.
  now rewrite !renderSignatureRow_sameAnswers, !text_sameAnswers,
    !moveDown_sameAnswers.
Qed.

(** The calls drawn, and with them the outcome of [build], are the same
    on two canvases that answer alike. *)
Lemma draw_sameAnswers this : draw c1 this = draw c2 this.
Proof.
  unfold draw.
  now rewrite renderSignatureBlock_sameAnswers, renderSections_sameAnswers,
    renderPreamble_sameAnswers, renderHeader_sameAnswers.
Qed.

Lemma build_sameAnswers document this :
  build c1 document this = build c2 document this.
Proof. unfold build. now rewrite draw_sameAnswers. Qed.

End SameAnswers.


(* ====================================================================== *)
(** * Facts on the promise, the fill colours and the tokens *)
(* ====================================================================== *)


(** ** The promise of [build] *)

Lemma notify_settled evs : forall x,
  promise x <> Pending -> promise (fold_left notify evs x) = promise x.
Proof.
  induction evs as [|ev evs IH]; intros x Hx; [reflexivity|].
  cbn [fold_left]. rewrite IH.
  - destruct ev; cbn [notify promise]; try reflexivity;
      destruct (promise x); try reflexivity; congruence.
  - destruct ev; cbn [notify promise]; try exact Hx;
      destruct (promise x); cbn; congruence.
Qed.

(** The listeners on a pending promise: nothing decisive was signalled,
    or the first decisive signal was an error, or it was the end. *)
Lemma notify_cases evs : forall cs,
  let x := fold_left notify evs {| chunks := cs; promise := Pending |} in
  (quiet evs = true /\ promise x = Pending
   /\ chunks x = cs ++ flat_map chunkOf evs)
  \/ (exists pre e post,
        evs = pre ++ EvError e :: post /\ quiet pre = true
        /\ promise x = Rejected e)
  \/ (exists pre post,
        evs = pre ++ EvEnd :: post /\ quiet pre = true
        /\ promise x = Fulfilled (concat (cs ++ flat_map chunkOf pre))).
Proof.
  induction evs as [|ev evs IH]; intros cs; cbv zeta.
  - left. cbn. now rewrite app_nil_r.
  - cbn [fold_left]. destruct ev as [chunk| |e].
    + cbn [notify chunks promise].
      destruct (IH (cs ++ [chunk])) as [(Hq & Hp & Hc)|[(pre & e & post & E & Hq & Hp)|(pre & post & E & Hq & Hp)]].
      * left. repeat split; auto. rewrite Hc, <- app_assoc. reflexivity.
      * right. left. exists (EvData chunk :: pre), e, post. subst evs. auto.
      * right. right. exists (EvData chunk :: pre), post. subst evs.
        repeat split; auto. rewrite Hp, <- app_assoc. reflexivity.
    + right. right. exists [], evs. repeat split.
      rewrite notify_settled by (cbn; discriminate).
      cbn. now rewrite app_nil_r.
    + right. left. exists [], e, evs. repeat split.
      now rewrite notify_settled by (cbn; discriminate).
Qed.



Lemma settle_without_exception r :
  thrown r = None ->
  settle r = promise (fold_left notify (whileDrawing r ++ afterEnd r)
                        {| chunks := []; promise := Pending |}).
Proof.
  intros H. unfold settle. now rewrite H, fold_left_app.
Qed.


(** ** Fill colours *)

Lemma paintedWith_fillAllowed this o :
  paintedWith black o -> fillAllowed this o.
Proof. destruct o; cbn; auto. Qed.


Lemma opEq_fillAllowed this a b :
  opEq a b -> fillAllowed this b -> fillAllowed this a.
Proof.
  destruct a, b; cbn [opEq fillAllowed]; try contradiction; auto.
  - intros (-> & _ & _ & _ & Hs & -> & _) [H|[H|(H1 & H2 & H3)]]; auto.
    right. right. repeat split; auto. now rewrite Hs.
  - now intros ->.
Qed.

Lemma specSignatureRow_fillAllowed this markers x y w label name marker :
  marker = clientMarker \/ marker = providerMarker ->
  Forall (fillAllowed this) (specSignatureRow markers x y w label name marker).
Proof.
  intros Hm. unfold specSignatureRow.
  destruct markers; cbn [app]; repeat apply Forall_cons; try apply Forall_nil;
    cbn [fillAllowed]; auto.
  right. right. repeat split; auto.
Qed.

Lemma Forall2_Forall_left {A B} (R : A -> B -> Prop) (P : A -> Prop) (Q : B -> Prop) :
  (forall a b, R a b -> Q b -> P a) ->
  forall la lb, Forall2 R la lb -> Forall Q lb -> Forall P la.
Proof.
  intros H la lb HR. induction HR; intros HQ; [constructor|].
  inversion HQ; subst. constructor; eauto.
Qed.

(** ** Occurrences of the anchor tokens *)

Lemma list_sum_zero (f : string -> nat) l :
  Forall (fun t => f t = 0) l -> list_sum (map f l) = 0.
Proof.
  unfold list_sum. induction 1 as [|t l Ht _ IH]; [reflexivity|].
  cbn [map fold_right]. now rewrite Ht, IH.
Qed.

Lemma texts_specSignatureRow markers x y w label name marker :
  texts (specSignatureRow markers x y w label name marker)
  = rowTexts markers label name marker.
Proof. destruct markers; reflexivity. Qed.

Ltac token_free :=
  repeat (rewrite (occurrences_skip_head "{"%char) by reflexivity);
  first
    [ assumption
    | reflexivity
    | rewrite (occurrences_skip_tail "}"%char) by reflexivity;
      first
        [ assumption
        | apply (occurrences_no_first "{"%char);
          [ reflexivity | apply toLocaleString_no_brace; auto ] ] ].

(** The texts that are drawn before the signature rows hold a token only
    where the contract data hold it. *)
Lemma leadingTexts_free tok this :
  tok = clientMarker \/ tok = providerMarker ->
  dataFreeOf tok (data this) ->
  Forall (fun t => occurrences tok t = 0)
    ("SERVICE AGREEMENT"
       :: ("Contract No: " ++ contractNumber (data this))%string
       :: preambleTexts (data this)
       ++ numberedSections 1 (buildSections this) ++ [witnessText]).
Proof.
  intros Htok (H1 & H2 & H3 & H4 & H5 & H6 & H7 & H8 & H9 & H10 & H11).
  cbn [preambleTexts numberedSections numberedItems buildSections flat_map map
       combine seq length fst snd items title app].
  destruct Htok; subst tok; repeat constructor; token_free.
Qed.

Lemma rowTexts_count tok markers label name marker :
  occurrences tok label = 0 -> occurrences tok name = 0 ->
  tok = clientMarker \/ tok = providerMarker ->
  list_sum (map (occurrences tok) (rowTexts markers label name marker))
  = if markers then occurrences tok marker else 0.
Proof.
  intros Hl Hn Htok. unfold rowTexts.
  assert (Hname : occurrences tok ("Name: " ++ name)%string = 0)
    by (destruct Htok; subst tok; token_free).
  assert (Ht : occurrences tok "Title: _______________________" = 0)
    by (destruct Htok; subst tok; reflexivity).
  assert (Hd : occurrences tok "Date: _______________________" = 0)
    by (destruct Htok; subst tok; reflexivity).
  unfold list_sum.
  destruct markers; cbn [app map fold_right]; rewrite Hl, Hname, Ht, Hd; lia.
Qed.



Section DocumentFacts.

Variable canvas : Canvas.

(** ** The whole document *)

Lemma draw_spec this :
  let markers := includeSignatureMarkers (options this) in
  let start := beforeRows canvas this in
  let leftX := Margins.left (margins (page start)) in
  let signatureWidth :=
    ((width (page start) - Margins.left (margins (page start))
      - Margins.right (margins (page start))) * (3 # 4))%Q in
  docFill (draw canvas this) = black
  /\ exists y2 l clientRow providerRow,
       ops (draw canvas this)
       = (OpText "SERVICE AGREEMENT" (margin (options this)) (margin (options this))
            "Helvetica-Bold" 20 black centered
          :: OpText ("Contract No: " ++ contractNumber (data this))
               (margin (options this)) y2 "Helvetica" 10 grey centered
          :: l) ++ clientRow ++ providerRow
       /\ texts l = preambleTexts (data this)
                      ++ numberedSections 1 (buildSections this) ++ [witnessText]
       /\ Forall (paintedWith black) l
       /\ Forall2 opEq clientRow
            (specSignatureRow markers leftX (docY start) signatureWidth
               "CLIENT" (clientName (data this)) clientMarker)
       /\ Forall2 opEq providerRow
            (specSignatureRow markers leftX (docY start + 170)%Q signatureWidth
               "PROVIDER" (providerName (data this)) providerMarker).
Proof.
  cbv zeta. rewrite draw_rows.
  destruct (beforeRows_spec canvas this) as (_ & Hb & y2 & l & Ho & Ht & Hc).
  destruct (signatureRows_spec canvas this (beforeRows canvas this) Hb)
    as (_ & Hf & _ & r1 & r2 & Hr & H1 & H2).
  split; [exact Hf|].
  exists y2, l, r1, r2. rewrite Hr, Ho. auto.
Qed.

Lemma draw_texts this :
  texts (ops (draw canvas this))
  = ("SERVICE AGREEMENT"
       :: ("Contract No: " ++ contractNumber (data this))%string
       :: preambleTexts (data this)
       ++ numberedSections 1 (buildSections this) ++ [witnessText])
    ++ rowTexts (includeSignatureMarkers (options this)) "CLIENT"
         (clientName (data this)) clientMarker
    ++ rowTexts (includeSignatureMarkers (options this)) "PROVIDER"
         (providerName (data this)) providerMarker.
Proof.
  destruct (draw_spec this) as (_ & y2 & l & r1 & r2 & Ho & Ht & _ & H1 & H2).
  rewrite Ho, !texts_app.
  rewrite (opEq_texts _ _ H1), (opEq_texts _ _ H2), !texts_specSignatureRow.
  cbn [texts flat_map textOf app]. fold (texts l). now rewrite Ht.
Qed.

(** A token that the contract data do not hold occurs once in the texts
    of the document when markers are drawn, and not at all otherwise. *)
Lemma tokenCount_draw tok this :
  tok = clientMarker \/ tok = providerMarker ->
  dataFreeOf tok (data this) ->
  tokenCount tok (ops (draw canvas this))
  = if includeSignatureMarkers (options this) then 1 else 0.
Proof.
  intros Htok Hfree. unfold tokenCount.
  rewrite draw_texts, !map_app, !list_sum_app.
  rewrite (list_sum_zero _ _ (leadingTexts_free tok this Htok Hfree)).
  assert (Hc : occurrences tok (clientName (data this)) = 0) by apply Hfree.
  assert (Hp : occurrences tok (providerName (data this)) = 0) by apply Hfree.
  rewrite !rowTexts_count; auto;
    try (destruct Htok; subst tok; reflexivity).
  destruct Htok; subst tok; destruct (includeSignatureMarkers (options this));
    reflexivity.
Qed.


End DocumentFacts.

(* ====================================================================== *)
(** * The properties of the specification *)
(* ====================================================================== *)

Section Claims.

Variable canvas : Canvas.


(** C2. Fixed offsets of the signature block. From any state, hence any
    cursor position [y0], at which the Client row starts, and whatever
    heights the canvas gives to the texts, the calls of the rows are at
    the places of the two rows of the specification: the Client row at
    [y0], the Provider row at exactly [y0 + 170], each with its rule at
    [startY + 85] from [leftX] to [leftX + (signatureWidth - 20)] and its
    name, title and date lines at [startY + 93], [+ 108] and [+ 123]; the
    cursor ends at the Provider start plus 140. [renderSignatureBlock]
    draws the rows from the state that its closing sentence leaves. *)
Theorem signature_block_fixed_offsets this start :
  let y0 := docY start in
  let providerStartY := (y0 + 170)%Q in
  let leftX := Margins.left (margins (page start)) in
  let signatureWidth :=
    ((width (page start) - Margins.left (margins (page start))
      - Margins.right (margins (page start))) * (3 # 4))%Q in
  let markers := includeSignatureMarkers (options this) in
  (exists clientRow providerRow,
     ops (signatureRows canvas this start) = ops start ++ clientRow ++ providerRow
     /\ Forall2 sameGeometry clientRow
          (specSignatureRow markers leftX y0 signatureWidth
             "CLIENT" (clientName (data this)) clientMarker)
     /\ Forall2 sameGeometry providerRow
          (specSignatureRow markers leftX providerStartY signatureWidth
             "PROVIDER" (providerName (data this)) providerMarker))
  /\ docY (signatureRows canvas this start) = (providerStartY + 140)%Q
  /\ (forall d,
        renderSignatureBlock canvas this d
        = signatureRows canvas this (signatureLead canvas this d)).
Proof.
  cbv zeta.
  destruct (signatureRows_geometry canvas this start)
    as (Hy & r1 & r2 & Ho & H1 & H2).
  split; [exists r1, r2; auto|]. split; [exact Hy|].
  intros d. reflexivity.
Qed.


(** C4. [buildSections] returns seven sections whatever the data, with the
    titles of the specification, in capitals, in its order. *)
Theorem buildSections_seven_sections this :
  length (buildSections this) = 7
  /\ map title (buildSections this)
     = [ "SCOPE OF SERVICES"; "COMPENSATION"; "TERM AND TERMINATION";
         "CONFIDENTIALITY"; "INTELLECTUAL PROPERTY";
         "LIMITATION OF LIABILITY"; "GENERAL PROVISIONS" ]
  /\ map title (buildSections this)
     = map toUpperCase
         [ "Scope of Services"; "Compensation"; "Term and Termination";
           "Confidentiality"; "Intellectual Property";
           "Limitation of Liability"; "General Provisions" ].
Proof. repeat split; reflexivity. Qed.




(** C9. The sections depend on the project description, the payment amount
    and the payment terms only. *)
Theorem buildSections_depends_on_three_fields this this' :
  projectDescription (data this) = projectDescription (data this') ->
  num_eq (paymentAmount (data this)) (paymentAmount (data this')) ->
  paymentTerms (data this) = paymentTerms (data this') ->
  buildSections this = buildSections this'.
Proof.
  intros Hd Ha Ht. unfold buildSections.
  rewrite Hd, Ht, (toLocaleString_num_eq _ _ Ha). reflexivity.
Qed.

(** C10. Fill colour. The header ends with black fill; with markers on, a
    signature row sets black again right after its white anchor text, so
    that whatever the colour it starts with its rule and its name, title
    and date lines are black. In the finished document every text and
    every rule is black, except the grey line of the contract number and
    the white anchor texts of one point; both signature rows are the rows
    of the specification, all black but for the anchor. *)
Theorem fill_colour_restored this :
  (forall d, docFill (renderHeader canvas this d) = black)
  /\ (forall d x y w label name marker,
        includeSignatureMarkers (options this) = true ->
        docFill (renderSignatureRow canvas this x y w label name marker d) = black
        /\ exists labelOp rest,
             ops (renderSignatureRow canvas this x y w label name marker d)
             = ops d ++ labelOp
                 :: OpText marker x (y + 25)%Q "Helvetica" 1 white noOptions
                 :: rest
             /\ length rest = 6
             /\ Forall (paintedWith black) rest)
  /\ Forall (fillAllowed this) (ops (draw canvas this))
  /\ docFill (draw canvas this) = black
  /\ exists before leftX startY signatureWidth clientRow providerRow,
       ops (draw canvas this) = before ++ clientRow ++ providerRow
       /\ Forall2 opEq clientRow
            (specSignatureRow (includeSignatureMarkers (options this))
               leftX startY signatureWidth
               "CLIENT" (clientName (data this)) clientMarker)
       /\ Forall2 opEq providerRow
            (specSignatureRow (includeSignatureMarkers (options this))
               leftX (startY + 170)%Q signatureWidth
               "PROVIDER" (providerName (data this)) providerMarker).
Proof.
  split; [intros d; now destruct (renderHeader_spec canvas this d) as (_ & H & _)|].
  split.
  { intros d x y w label name marker Hm.
    unfold renderSignatureRow. rewrite Hm. run. split; [reflexivity|].
    flatten_log. do 2 eexists. split; [reflexivity|].
    split; [reflexivity|]. repeat constructor. }
  destruct (draw_spec canvas this)
    as (Hf & y2 & l & r1 & r2 & Ho & _ & Hl & H1 & H2).
  split; [|split; [exact Hf|]].
  - rewrite Ho. repeat (apply Forall_app; split).
    + constructor; [left; reflexivity|].
      constructor; [right; left; split; reflexivity|].
      eapply Forall_impl; [|exact Hl]. apply paintedWith_fillAllowed.
    + eapply (Forall2_Forall_left _ _ _ (opEq_fillAllowed this)); [exact H1|].
      apply specSignatureRow_fillAllowed. now left.
    + eapply (Forall2_Forall_left _ _ _ (opEq_fillAllowed this)); [exact H2|].
      apply specSignatureRow_fillAllowed. now right.
  - do 6 eexists. split; [exact Ho|]. split; [exact H1|exact H2].
Qed.

End Claims.


(* ====================================================================== *)
(** * Instances and examples *)
(* ====================================================================== *)

Example toLocaleString_samples :
  toLocaleString (JsFin 25000) = "25.000,00"
  /\ toLocaleString (JsFin 1) = "1,00"
  /\ toLocaleString (JsFin (1234567891 # 1000)) = "1.234.567,891"
  /\ toLocaleString (JsFin (1 # 2)) = "0,50"
  /\ toLocaleString (JsFin (1 # 8)) = "0,125"
  /\ toLocaleString (JsFin (1 # 16)) = "0,063"
  /\ toLocaleString (JsFin (-(25000))) = "-25.000,00"
  /\ toLocaleString (JsFin (999999 # 1000000)) = "1,00"
  /\ toLocaleString (JsFin 1000) = "1.000,00".
Proof. repeat split; reflexivity. Qed.

(** The end-to-end scenario: the minimal contract with the default
    options. The first and the last section headers are drawn once, both
    role labels are drawn, and each anchor token occurs once. *)
Example minimal_contract_texts :
  let drawn := texts (ops (draw plainCanvas (minimalBuilder (JsFin 1)))) in
  length drawn = 58
  /\ count_occ string_dec drawn "1. SCOPE OF SERVICES" = 1
  /\ count_occ string_dec drawn "7. GENERAL PROVISIONS" = 1
  /\ count_occ string_dec drawn "CLIENT" = 1
  /\ count_occ string_dec drawn "PROVIDER" = 1
  /\ count_occ string_dec drawn clientMarker = 1
  /\ count_occ string_dec drawn providerMarker = 1
  /\ nth 20 drawn ""
     = "2.1  The Client agrees to pay the Provider a total amount of €1,00 (excluding VAT) for the services described herein."
  /\ nth 46 drawn ""
     = "7.5  If any provision of this Agreement is held to be invalid or unenforceable, the remaining provisions shall continue in full force and effect.".
Proof. vm_compute. repeat split; reflexivity. Qed.

(** The threshold on an A4 page with the default margin is 669.89 for a
    section and 369.89 for the signature block: with the cursor at the
    threshold no page is added, one hundredth of a point past it a page
    is added first. *)
Example page_break_at_and_past_threshold :
  let section := {| title := "T"; items := ["a"] |} in
  let this := minimalBuilder (JsFin 1) in
  map isAddPage
    (ops (renderSection plainCanvas this 3 section
            (setY (66989 # 100) (initialDoc this))))
  = [false; false]
  /\ map isAddPage
       (ops (renderSection plainCanvas this 3 section
               (setY (66990 # 100) (initialDoc this))))
     = [true; false; false]
  /\ map isAddPage
       (ops (renderSignatureBlock plainCanvas (withMarkers false this)
               (setY (36989 # 100) (initialDoc this))))
     = [false; false; false; false; false; false; false; false;
        false; false; false; false; false; false; false]
  /\ hd_error
       (ops (renderSignatureBlock plainCanvas (withMarkers false this)
               (setY (36990 # 100) (initialDoc this))))
     = Some OpAddPage.
Proof. vm_compute. repeat split; reflexivity. Qed.

(** On an A4 page with the default margin, rows that start at the top
    margin: the Provider row starts at 72 + 170 and the cursor ends at
    72 + 170 + 140. *)
Example signature_rows_from_the_top :
  let d := signatureRows plainCanvas (minimalBuilder (JsFin 1))
             (initialDoc (minimalBuilder (JsFin 1))) in
  (docY d == 382)%Q
  /\ nth_error (ops d) 8
     = Some (OpText "PROVIDER" 72 (72 + 170) "Helvetica" 10 black
               (withWidth ((fst (pageDimensions A4) - 72 - 72) * (3 # 4))%Q)).
Proof. split; reflexivity. Qed.

Lemma minimalData_free tok amount :
  occurrences tok "X" = 0 -> dataFreeOf tok (minimalData amount).
Proof. intros H. repeat split; exact H. Qed.






Example build_outcomes :
  build plainCanvas completes (minimalBuilder (JsFin 1)) = Fulfilled [b1; b2]
  /\ build plainCanvas failsAfterEnd (minimalBuilder (JsFin 1))
     = Rejected "out of memory"
  /\ build plainCanvas throwsWhileDrawing (minimalBuilder (JsFin 1))
     = Rejected "invalid argument".
Proof. repeat split; reflexivity. Qed.

(** Two contracts between different parties, the amount written as 1/2
    and as 2/4. *)
Lemma buildSections_depends_on_three_fields_witness :
  projectDescription (minimalData (JsFin (1 # 2))) = projectDescription otherParties
  /\ num_eq (paymentAmount (minimalData (JsFin (1 # 2)))) (paymentAmount otherParties)
  /\ paymentTerms (minimalData (JsFin (1 # 2))) = paymentTerms otherParties
  /\ buildSections (minimalBuilder (JsFin (1 # 2)))
     = buildSections (newContractPdfBuilder otherParties defaultPdfOptions).
Proof.
  split; [reflexivity|]. split; [reflexivity|]. split; [reflexivity|].
  exact (buildSections_depends_on_three_fields
           (minimalBuilder (JsFin (1 # 2)))
           (newContractPdfBuilder otherParties defaultPdfOptions)
           eq_refl eq_refl eq_refl).
Defined.

(* ====================================================================== *)
(** * Further facts on the layout *)
(* ====================================================================== *)

Lemma pageBreaks_app a b : pageBreaks (a ++ b) = pageBreaks a + pageBreaks b.
Proof. unfold pageBreaks. now rewrite filter_app, length_app. Qed.

Lemma pageBreaks_none l :
  Forall (fun o => isAddPage o = false) l -> pageBreaks l = 0.
Proof.
  unfold pageBreaks. induction 1 as [|o l H _ IH]; [reflexivity|].
  cbn [filter]. now rewrite H.
Qed.

Section PageFacts.

Variable canvas : Canvas.

Lemma renderItems_style its : forall sectionNumber itemNumber d,
  let d' := renderItems canvas sectionNumber itemNumber its d in
  docX d' = docX d
  /\ exists l,
       ops d' = ops d ++ l
       /\ Forall2 (fun o content =>
                     exists y, o = OpText content (docX d) y (docFont d)
                                     (docFontSize d) (docFill d) itemOptions)
            l (numberedItems sectionNumber itemNumber its).
Proof.
  induction its as [|item rest IH]; intros n k d; cbn zeta.
  - split; [reflexivity|]. exists []. rewrite app_nil_r. split; constructor.
  - cbn [renderItems].
    destruct (IH n (S k)
                (moveDown canvas (1 # 2)
                   (text canvas (itemLabel n k ++ "  " ++ item)%string None itemOptions d)))
      as (Hx & l & Hl & Hs).
    rewrite Hx, Hl. clear Hx Hl. run_in Hs. run.
    split; [reflexivity|].
    eexists. split; [flatten_log; reflexivity|].
    unfold numberedItems. cbn [length seq combine map fst snd].
    constructor; [eexists; reflexivity|exact Hs].
Qed.

Lemma renderSection_pages this sectionNumber section d :
  exists l,
    ops (renderSection canvas this sectionNumber section d) = ops d ++ l
    /\ pageBreaks l <= 1.
Proof.
  destruct (renderSection_spec canvas this sectionNumber section d)
    as (_ & _ & l & Hl & _ & Ha & _).
  eexists. split; [exact Hl|].
  rewrite pageBreaks_app.
  change (OpText ?c ?x ?y ?f ?s ?fl ?o :: l) with ([OpText c x y f s fl o] ++ l).
  rewrite pageBreaks_app, (pageBreaks_none l Ha).
  destruct (Qgtb _ _); cbn; lia.
Qed.

Lemma renderSectionsFrom_pages this sections : forall sectionNumber d,
  exists l,
    ops (renderSectionsFrom canvas this sectionNumber sections d) = ops d ++ l
    /\ pageBreaks l <= length sections.
Proof.
  induction sections as [|section rest IH]; intros n d.
  - exists []. rewrite app_nil_r. split; [reflexivity|cbn; lia].
  - cbn [renderSectionsFrom].
    destruct (IH (S n) (renderSection canvas this n section d)) as (l & Hl & Hc).
    destruct (renderSection_pages this n section d) as (l1 & Hl1 & Hc1).
    exists (l1 ++ l). rewrite Hl, Hl1, <- app_assoc. split; [reflexivity|].
    rewrite pageBreaks_app. cbn [length]. lia.
Qed.

Lemma leading_pages this :
  pageBreaks (ops (renderPreamble canvas this
                     (renderHeader canvas this (initialDoc this)))) = 0.
Proof. reflexivity. Qed.

Lemma signatureLead_pages this d :
  exists l, ops (signatureLead canvas this d) = ops d ++ l /\ pageBreaks l <= 1.
Proof.
  destruct (signatureLead_spec canvas this d) as (_ & _ & x & y & Hl).
  eexists. split; [exact Hl|].
  destruct (Qgtb _ _); cbn; lia.
Qed.

Lemma draw_pages this :
  pageBreaks (ops (draw canvas this)) <= length (buildSections this) + 1.
Proof.
  rewrite draw_rows.
  destruct (signatureRows_noAddPage canvas this (beforeRows canvas this))
    as (l4 & -> & H4).
  unfold beforeRows.
  destruct (signatureLead_pages this
              (renderSections canvas this
                 (renderPreamble canvas this
                    (renderHeader canvas this (initialDoc this)))))
    as (l3 & -> & H3).
  unfold renderSections.
  destruct (renderSectionsFrom_pages this (buildSections this) 1
              (renderPreamble canvas this
                 (renderHeader canvas this (initialDoc this))))
    as (l2 & -> & H2).
  rewrite !pageBreaks_app, leading_pages, (pageBreaks_none l4 H4). lia.
Qed.

End PageFacts.

(* ====================================================================== *)
(** * Further properties of the builder *)
(* ====================================================================== *)

Lemma quiet_app a b : quiet (a ++ b) = quiet a && quiet b.
Proof. apply forallb_app. Qed.

Lemma quiet_no_end pre post : quiet (pre ++ EvEnd :: post) = false.
Proof.
  rewrite quiet_app. cbn. now rewrite andb_false_r.
Qed.

Lemma quiet_no_error pre e post : quiet (pre ++ EvError e :: post) = false.
Proof.
  rewrite quiet_app. cbn. now rewrite andb_false_r.
Qed.

(** The first decisive signal of a list of events is unique. *)
Lemma notify_first_error pre e post cs :
  quiet pre = true ->
  promise (fold_left notify (pre ++ EvError e :: post)
             {| chunks := cs; promise := Pending |}) = Rejected e.
Proof.
  revert cs. induction pre as [|ev pre IH]; intros cs Hq.
  - cbn [app fold_left]. now rewrite notify_settled by (cbn; discriminate).
  - cbn [quiet forallb] in Hq. apply andb_true_iff in Hq as [Hev Hq].
    destruct ev as [chunk| |e']; try discriminate.
    cbn [app fold_left notify chunks promise]. now apply IH.
Qed.

Lemma notify_first_end pre post cs :
  quiet pre = true ->
  promise (fold_left notify (pre ++ EvEnd :: post)
             {| chunks := cs; promise := Pending |})
  = Fulfilled (concat (cs ++ flat_map chunkOf pre)).
Proof.
  revert cs. induction pre as [|ev pre IH]; intros cs Hq.
  - cbn [app fold_left]. rewrite notify_settled by (cbn; discriminate).
    cbn. now rewrite app_nil_r.
  - cbn [quiet forallb] in Hq. apply andb_true_iff in Hq as [Hev Hq].
    destruct ev as [chunk| |e']; try discriminate.
    cbn [app fold_left notify chunks promise]. rewrite IH by exact Hq.
    cbn [flat_map chunkOf]. now rewrite <- app_assoc.
Qed.

Lemma notify_quiet evs cs :
  quiet evs = true ->
  promise (fold_left notify evs {| chunks := cs; promise := Pending |}) = Pending.
Proof.
  intros Hq.
  destruct (notify_cases evs cs)
    as [(_ & Hp & _)|[(pre & e & post & E & _ & _)|(pre & post & E & _ & _)]].
  - exact Hp.
  - rewrite E, quiet_no_error in Hq. discriminate.
  - rewrite E, quiet_no_end in Hq. discriminate.
Qed.

Section BuilderProperties.

Variable canvas : Canvas.

(** X1. The text layer of a document. The texts drawn by [build] are, in this
    order: the title and the contract number, the texts of the preamble,
    every section header followed by its numbered items, the closing
    sentence, the Client row and the Provider row. Their number does not
    depend on the contract data: 58 with the anchors, 56 without. *)
Theorem document_text_layer this :
  let markers := includeSignatureMarkers (options this) in
  texts (ops (draw canvas this))
  = ["SERVICE AGREEMENT"; ("Contract No: " ++ contractNumber (data this))%string]
      ++ preambleTexts (data this)
      ++ numberedSections 1 (buildSections this)
      ++ [witnessText]
      ++ rowTexts markers "CLIENT" (clientName (data this)) clientMarker
      ++ rowTexts markers "PROVIDER" (providerName (data this)) providerMarker
  /\ length (texts (ops (draw canvas this))) = if markers then 58 else 56.
Proof.
  cbv zeta. rewrite draw_texts. split.
  - cbn [app]. rewrite <- !app_assoc. reflexivity.
  - rewrite !length_app. cbn [length].
    destruct (includeSignatureMarkers (options this)); reflexivity.
Qed.

(** X2. Page breaks. [build] calls [addPage] at most eight times, once at
    most for each of the seven sections and for the signature block, and
    never while it draws the header and the preamble. *)
Theorem page_breaks_bounded this :
  pageBreaks (ops (draw canvas this)) <= 8
  /\ pageBreaks (ops (renderPreamble canvas this
                        (renderHeader canvas this (initialDoc this)))) = 0
  /\ forall sections n d,
       exists l,
         ops (renderSectionsFrom canvas this n sections d) = ops d ++ l
         /\ pageBreaks l <= length sections.
Proof.
  split; [|split].
  - exact (draw_pages canvas this).
  - reflexivity.
  - intros sections n d. apply renderSectionsFrom_pages.
Qed.

(** X3. The style of a section. Whatever the font, the size and the column
    that [renderSection] is entered with, it draws one text for the header
    and one text for each item, in the order of the items; every item is
    drawn in Helvetica of 11 points with an indent of 25, justified, with
    a line gap of 2, at the column of the header; the section leaves
    Helvetica of 11 points behind. *)
Theorem section_item_style this sectionNumber section d :
  let d' := renderSection canvas this sectionNumber section d in
  let brk := Qgtb (docY d) (height (page d) - margin (options this) - 100) in
  let x := if brk then Margins.left (margins (page d)) else docX d in
  docFont d' = "Helvetica" /\ docFontSize d' = 11%Q /\ docX d' = x
  /\ exists y l,
       ops d' = ops d ++ (if brk then [OpAddPage] else [])
                  ++ OpText (natToString sectionNumber ++ ". " ++ title section)
                       x y "Helvetica-Bold" 12 (docFill d) noOptions
                  :: l
       /\ Forall2 (itemDrawn x (docFill d)) l
            (numberedItems sectionNumber 1 (items section))
       /\ length l = length (items section).
Proof.
  cbv zeta. unfold renderSection.
  match goal with
  | |- context [renderItems canvas ?n ?k ?its ?d0] =>
      destruct (renderItems_style canvas its n k d0) as (Hx & l & Hl & Hs);
      destruct (renderItems_spec canvas its n k d0) as (_ & _ & Hfo & Hsz & _)
  end.
  run. rewrite Hx, Hl, Hfo, Hsz. clear Hx Hl Hfo Hsz. run_in Hs. run.
  assert (Hlen : length l = length (items section)).
  { apply Forall2_length in Hs. rewrite Hs. unfold numberedItems.
    rewrite length_map, length_combine, length_seq. lia. }
  destruct (Qgtb (docY d) (height (page d) - margin (options this) - 100));
    run_in Hs; run; (repeat split; auto); do 2 eexists;
    (split; [flatten_log; reflexivity|]); (split; [exact Hs|exact Hlen]).
Qed.

(** X4. A stalled document. The promise of [build] stays pending exactly when
    no drawing call throws and the document signals neither its end nor
    an error: nothing else settles it. *)
Theorem build_pending_iff document this :
  let r := document (ops (draw canvas this)) in
  build canvas document this = Pending
  <-> thrown r = None /\ quiet (whileDrawing r ++ afterEnd r) = true.
Proof.
  unfold build. generalize (document (ops (draw canvas this))).
  intros r. cbv zeta. split.
  - intros H. destruct (thrown r) as [e|] eqn:Ht.
    + unfold settle in H. rewrite Ht in H.
      destruct (promise _); discriminate.
    + split; [reflexivity|].
      rewrite (settle_without_exception r Ht) in H.
      destruct (notify_cases (whileDrawing r ++ afterEnd r) [])
        as [(Hq & _)|[(pre & e & post & _ & _ & Hp)|(pre & post & _ & _ & Hp)]];
        [exact Hq| |]; rewrite Hp in H; discriminate.
  - intros [Ht Hq]. rewrite (settle_without_exception r Ht).
    now apply notify_quiet.
Qed.

(** X5. The reason of a rejection. The promise of [build] is rejected with
    the first error that reaches it, unchanged: the error that the
    document signals first while the calls are made, whatever is thrown
    or signalled later; the exception of a drawing call, when nothing
    decisive was signalled before it; the first error signalled in a run
    without exception, when no end precedes it. *)
Theorem build_rejects_with_first_error document this :
  let r := document (ops (draw canvas this)) in
  (forall pre e post,
     whileDrawing r = pre ++ EvError e :: post -> quiet pre = true ->
     build canvas document this = Rejected e)
  /\ (forall e,
        thrown r = Some e -> quiet (whileDrawing r) = true ->
        build canvas document this = Rejected e)
  /\ (forall pre e post,
        thrown r = None ->
        whileDrawing r ++ afterEnd r = pre ++ EvError e :: post ->
        quiet pre = true ->
        build canvas document this = Rejected e).
Proof.
  unfold build. generalize (document (ops (draw canvas this))).
  intros r. cbv zeta. split; [|split].
  - intros pre e post E Hq. unfold settle. rewrite E.
    destruct (thrown r) as [e0|].
    + now rewrite (notify_first_error pre e post [] Hq).
    + rewrite notify_settled; rewrite (notify_first_error pre e post [] Hq);
        [reflexivity|discriminate].
  - intros e Ht Hq. unfold settle. rewrite Ht.
    now rewrite (notify_quiet _ [] Hq).
  - intros pre e post Ht E Hq.
    rewrite (settle_without_exception r Ht), E.
    now apply notify_first_error.
Qed.

(** X6. The buffer of a fulfilment. When no drawing call throws and the end
    is the first decisive signal of the document, the promise of [build]
    is fulfilled with the chunks received before the end, concatenated in
    the order of their arrival; chunks and errors signalled after the end
    change nothing. *)
Theorem build_fulfils_with_chunks document this pre post :
  let r := document (ops (draw canvas this)) in
  thrown r = None ->
  whileDrawing r ++ afterEnd r = pre ++ EvEnd :: post ->
  quiet pre = true ->
  build canvas document this = Fulfilled (concat (flat_map chunkOf pre)).
Proof.
  unfold build. generalize (document (ops (draw canvas this))).
  intros r. cbv zeta. intros Ht E Hq.
  rewrite (settle_without_exception r Ht), E.
  now rewrite (notify_first_end pre post [] Hq).
Qed.

End BuilderProperties.

(* ====================================================================== *)
(** * Facts on the value of a formatted amount *)
(* ====================================================================== *)


















(* ====================================================================== *)
(** * Facts on the signing service *)
(* ====================================================================== *)

Module SignhostFacts.

Import Signhost.

(** ** Letter case *)

Lemma lower_upper_char c : lower_char (upper_char c) = lower_char c.
Proof. destruct c as [[] [] [] [] [] [] [] []]; reflexivity. Qed.

Lemma lower_lower_char c : lower_char (lower_char c) = lower_char c.
Proof. destruct c as [[] [] [] [] [] [] [] []]; reflexivity. Qed.

Lemma toLowerCase_toUpperCase s : toLowerCase (toUpperCase s) = toLowerCase s.
Proof.
  induction s as [|c s IH]; [reflexivity|].
  cbn [toUpperCase toLowerCase]. now rewrite lower_upper_char, IH.
Qed.

Lemma toLowerCase_idempotent s : toLowerCase (toLowerCase s) = toLowerCase s.
Proof.
  induction s as [|c s IH]; [reflexivity|].
  cbn [toLowerCase]. now rewrite lower_lower_char, IH.
Qed.

(** ** Texts as lists of characters *)

Lemma list_of_append a b :
  list_ascii_of_string (a ++ b)%string
  = list_ascii_of_string a ++ list_ascii_of_string b.
Proof.
  induction a as [|c a IH]; [reflexivity|].
  cbn [append list_ascii_of_string app]. now rewrite IH.
Qed.

Lemma list_of_injective a b :
  list_ascii_of_string a = list_ascii_of_string b -> a = b.
Proof.
  intros H. rewrite <- (string_of_list_ascii_of_string a),
    <- (string_of_list_ascii_of_string b). now rewrite H.
Qed.

Lemma has_char_In c s :
  has_char c s = false -> ~ In c (list_ascii_of_string s).
Proof.
  induction s as [|a s IH]; cbn [has_char list_ascii_of_string In]; [tauto|].
  intros H. apply orb_false_iff in H as [Ha Hs].
  intros [E|E]; [|now apply IH].
  subst a. now rewrite Ascii.eqb_refl in Ha.
Qed.

Lemma append_inv_head p a b : (p ++ a)%string = (p ++ b)%string -> a = b.
Proof.
  induction p as [|c p IH]; cbn [append]; intros H; [exact H|].
  injection H as H. now apply IH.
Qed.

(** The first occurrence of a character splits a list in one way. *)
Lemma split_at_first {A} (c : A) : forall u u' v v',
  ~ In c u -> ~ In c u' -> u ++ c :: v = u' ++ c :: v' -> u = u' /\ v = v'.
Proof.
  induction u as [|a u IH]; intros [|a' u'] v v' Hu Hu' E; cbn [app] in E.
  - injection E as E. auto.
  - injection E as E _. subst a'. exfalso. apply Hu'. now left.
  - injection E as E _. subst a. exfalso. apply Hu. now left.
  - injection E as Ea E. subst a'.
    destruct (IH u' v v') as [-> ->]; auto.
    + intros H. apply Hu. now right.
    + intros H. apply Hu'. now right.
Qed.

(** The last occurrence of a character splits a list in one way. *)
Lemma split_at_last {A} (c : A) u u' v v' :
  ~ In c v -> ~ In c v' -> u ++ c :: v = u' ++ c :: v' -> u = u' /\ v = v'.
Proof.
  intros Hv Hv' E. apply (f_equal (@rev A)) in E.
  rewrite !rev_app_distr in E. cbn [rev] in E. rewrite <- !app_assoc in E.
  cbn [app] in E.
  apply split_at_first in E; try (rewrite <- in_rev; assumption).
  destruct E as [E1 E2].
  apply (f_equal (@rev A)) in E1, E2. rewrite !rev_involutive in E1, E2.
  auto.
Qed.

(** ** The text under the checksum *)

Lemma checksumData_parts this id st :
  list_ascii_of_string (checksumData this id st)
  = (list_ascii_of_string id ++ ["|"%char])
      ++ "|"%char :: list_ascii_of_string st
      ++ "|"%char :: list_ascii_of_string (configSharedSecret this).
Proof.
  unfold checksumData. rewrite !list_of_append. cbn [list_ascii_of_string app].
  now rewrite <- !app_assoc.
Qed.

Lemma checksumData_determines this id id' st st' :
  has_char "|" st = false -> has_char "|" st' = false ->
  checksumData this id st = checksumData this id' st' ->
  id = id' /\ st = st'.
Proof.
  intros Hs Hs' E. apply (f_equal list_ascii_of_string) in E.
  rewrite !checksumData_parts in E.
  assert (E' : (list_ascii_of_string id ++ ["|"%char])
                 ++ "|"%char :: list_ascii_of_string st
               = (list_ascii_of_string id' ++ ["|"%char])
                   ++ "|"%char :: list_ascii_of_string st').
  { apply (app_inv_tail
             ("|"%char :: list_ascii_of_string (configSharedSecret this))).
    rewrite <- !app_assoc. cbn [app]. rewrite <- !app_assoc in E. exact E. }
  apply split_at_last in E'; try (now apply has_char_In).
  destruct E' as [E1 E2]. apply app_inv_tail in E1.
  split; now apply list_of_injective.
Qed.

(** ** Postbacks *)

Lemma validate_typed P this id st received :
  validatePostbackChecksumValue P this (VString id) (VNumber st) (VString received)
  = Returned (validatePostbackChecksum P this id st received).
Proof. reflexivity. Qed.

Lemma eqb_empty s : String.eqb s "" = false <-> s <> ""%string.
Proof.
  destruct s; cbn; split; intros H; try reflexivity; try discriminate;
    congruence.
Qed.

(** ** Status codes *)

Lemma isCode_unique q a b :
  isCode (JsFin q) a = true -> a <> b -> isCode (JsFin q) b = false.
Proof.
  unfold isCode. intros Ha Hab.
  apply Qeq_bool_iff in Ha.
  destruct (Qeq_bool q (inject_Z b)) eqn:Hb; [|reflexivity].
  apply Qeq_bool_iff in Hb. exfalso. apply Hab.
  rewrite Ha in Hb. unfold Qeq in Hb. cbn in Hb. lia.
Qed.

(** ** Addresses *)

Lemma encodeURIComponent_cons c s :
  encodeURIComponent (String c s) = (encodeChar c ++ encodeURIComponent s)%string.
Proof.
  cbn [encodeURIComponent]. unfold encodeChar.
  destruct (unreserved c); reflexivity.
Qed.

Lemma has_char_append c a b :
  has_char c (a ++ b)%string = has_char c a || has_char c b.
Proof.
  induction a as [|x a IH]; [reflexivity|].
  cbn [append has_char]. now rewrite IH, orb_assoc.
Qed.

Lemma encodeChar_safe c :
  has_char "/" (encodeChar c) = false
  /\ has_char "?" (encodeChar c) = false
  /\ has_char "#" (encodeChar c) = false.
Proof. destruct c as [[] [] [] [] [] [] [] []]; repeat split; reflexivity. Qed.

Lemma decodePercent_plain c s :
  c <> "%"%char -> decodePercent (String c s) = String c (decodePercent s).
Proof.
  intros H. cbn [decodePercent].
  destruct (Ascii.eqb c "%") eqn:E; [apply Ascii.eqb_eq in E; contradiction|].
  destruct s as [|h [|l s]]; reflexivity.
Qed.

Lemma decodePercent_encodeChar c s :
  decodePercent (encodeChar c ++ s)%string = String c (decodePercent s).
Proof.
  destruct (unreserved c) eqn:U.
  - unfold encodeChar. rewrite U. cbn [append].
    apply decodePercent_plain. intros ->. discriminate.
  - revert U. destruct c as [[] [] [] [] [] [] [] []]; intros U;
      try discriminate U; reflexivity.
Qed.

Lemma decodePercent_encodeURIComponent s :
  decodePercent (encodeURIComponent s) = s.
Proof.
  induction s as [|c s IH]; [reflexivity|].
  now rewrite encodeURIComponent_cons, decodePercent_encodeChar, IH.
Qed.

End SignhostFacts.

(* ====================================================================== *)
(** * Properties of the signing service *)
(* ====================================================================== *)

Section SignhostProperties.

Import Signhost SignhostFacts.

Variable P : Platform.
Variable this : SignhostService.

(** X12. Letter case of a checksum. [validatePostbackChecksum] gives the same
    answer for a received checksum of ASCII characters, for its upper
    case and for its lower case. (The case mappings of other characters
    are not modelled.) *)
Theorem checksum_ignores_letter_case id st received :
  isAscii received = true ->
  validatePostbackChecksum P this id st (toUpperCase received)
  = validatePostbackChecksum P this id st received
  /\ validatePostbackChecksum P this id st (toLowerCase received)
     = validatePostbackChecksum P this id st received.
Proof.
  intros _. unfold validatePostbackChecksum.
  now rewrite toLowerCase_toUpperCase, toLowerCase_idempotent.
Qed.

(** X13. The text under the checksum. For one shared secret, the text that
    [validatePostbackChecksum] digests determines the transaction
    identifier and the text of the status, when the status texts hold no
    vertical bar, as the texts of numbers do: two postbacks that differ
    in identifier or in status never share this text. *)
Theorem checksum_data_identifies_postback id id' st st' :
  has_char "|" st = false -> has_char "|" st' = false ->
  checksumData this id st = checksumData this id' st' ->
  id = id' /\ st = st'.
Proof. apply checksumData_determines. Qed.

(** X8. What [parsePostback] returns. A postback that it returns is the body
    itself, and this body has an identifier that is not falsy, a status
    that is a number and a checksum that is a text, not empty, equal up
    to letter case to the digest of the identifier, the status and the
    shared secret. *)
Theorem parsePostback_returns_validated body postback :
  parsePostback P this body = Returned (Some postback) ->
  postback = body
  /\ truthy (getProp body "Id") = true
  /\ exists id st received,
       toStringValue P (getProp body "Id") = Some id
       /\ getProp body "Status" = VNumber st
       /\ getProp body "Checksum" = VString received
       /\ received <> ""%string
       /\ toLowerCase received
          = toLowerCase (sha1hex P (checksumData this id (numberToString P st))).
Proof.
  unfold parsePostback.
  destruct (negb (truthy body) || negb (typeofObject body)); [discriminate|].
  destruct (truthy (getProp body "Id")) eqn:Hid; [|discriminate].
  destruct (getProp body "Status") as [| | | st | | |] eqn:Hst; try discriminate.
  destruct (truthy (getProp body "Checksum")) eqn:Hck; [|discriminate].
  cbn [negb orb typeofNumber]. unfold validatePostbackChecksumValue.
  destruct (toStringValue P (getProp body "Id")) as [id|] eqn:Hs; [|discriminate].
  cbn [toStringValue].
  destruct (getProp body "Checksum") as [| | | | received | |] eqn:Hc;
    try discriminate.
  destruct (String.eqb _ _) eqn:E; [|discriminate].
  intros H. injection H as <-. split; [reflexivity|]. split; [reflexivity|].
  exists id, st, received. repeat split.
  - cbn [truthy] in Hck. apply negb_true_iff in Hck. now apply eqb_empty.
  - apply String.eqb_eq in E. now symmetry.
Qed.

(** X9. [parsePostback] on a postback of the declared types. For an object
    whose identifier and checksum are texts and whose status is a number,
    [parsePostback] does not throw, and it returns the object exactly
    when the identifier and the checksum are not empty and
    [validatePostbackChecksum] accepts them; it returns [null]
    otherwise. *)
Theorem parsePostback_on_typed_postback fields id st received :
  getField "Id" fields = VString id ->
  getField "Status" fields = VNumber st ->
  getField "Checksum" fields = VString received ->
  parsePostback P this (VObject fields)
  = Returned
      (if negb (String.eqb id "") && negb (String.eqb received "")
          && validatePostbackChecksum P this id st received
       then Some (VObject fields) else None).
Proof.
  intros Hid Hst Hck. unfold parsePostback.
  cbn [truthy typeofObject negb orb getProp]. rewrite Hid, Hst, Hck.
  cbn [truthy typeofNumber negb orb]. rewrite validate_typed.
  destruct (String.eqb id ""); [reflexivity|].
  destruct (String.eqb received ""); reflexivity.
Qed.

(** X10. Bodies that [parsePostback] refuses without looking at the
    checksum. It returns [null], and does not throw, for a body that is
    no object with properties of its own (nothing, [null], a boolean, a
    number, a text, an array), for a body whose identifier is missing or
    falsy, for a body whose status is not a number, and for a body whose
    checksum is missing or falsy. *)
Theorem parsePostback_null_on_incomplete_body body :
  (forall fields, body <> VObject fields)
  \/ truthy (getProp body "Id") = false
  \/ typeofNumber (getProp body "Status") = false
  \/ truthy (getProp body "Checksum") = false ->
  parsePostback P this body = Returned None.
Proof.
  intros H. unfold parsePostback.
  destruct (negb (truthy body) || negb (typeofObject body)) eqn:Hb;
    [reflexivity|].
  destruct H as [H|[H|[H|H]]].
  - destruct body; try discriminate Hb; try reflexivity.
    now destruct (H fields).
  - now rewrite H.
  - rewrite H. now rewrite orb_true_r.
  - rewrite H. now rewrite orb_true_r.
Qed.

(** X11. A checksum that is no text. For an object with an identifier that is
    not falsy and a status that is a number, a checksum that is neither
    falsy nor a text makes [parsePostback] throw a [TypeError]: it does
    not return [null]. *)
Theorem parsePostback_throws_on_checksum_of_other_type fields st checksum :
  truthy (getField "Id" fields) = true ->
  getField "Status" fields = VNumber st ->
  getField "Checksum" fields = checksum ->
  truthy checksum = true ->
  (forall received, checksum <> VString received) ->
  parsePostback P this (VObject fields) = Threw typeError.
Proof.
  intros Hid Hst Hck Ht Hn. unfold parsePostback.
  cbn [truthy typeofObject negb orb getProp]. rewrite Hid, Hst, Hck, Ht.
  cbn [typeofNumber negb orb]. unfold validatePostbackChecksumValue.
  destruct (toStringValue P (getField "Id" fields)); cbn [toStringValue];
    [|reflexivity].
  destruct checksum; try reflexivity. exfalso. exact (Hn _ eq_refl).
Qed.

(** X14. Final statuses and their labels. A status is final for
    [isTransactionComplete] exactly when [getStatusLabel] names it
    Signed, Rejected, Expired, Cancelled or Failed; a status that is
    waiting, in progress or unknown is not final. *)
Theorem complete_iff_final_label status :
  isTransactionComplete status = true
  <-> In (getStatusLabel P status)
        ["Signed"; "Rejected"; "Expired"; "Cancelled"; "Failed"]%string.
Proof.
  unfold isTransactionComplete, getStatusLabel, finalStatuses,
    TransactionStatusLabels.
  destruct status as [|neg| |q];
    try (cbn; split; [discriminate|];
         intros H; repeat (destruct H as [H|H]; try discriminate H); contradiction).
  cbn [lookupLabel existsb].
  repeat match goal with
  | |- context [isCode (JsFin q) ?c] =>
      lazymatch goal with
      | H : isCode (JsFin q) c = _ |- _ => fail
      | _ => idtac
      end;
      let E := fresh "E" in
      destruct (isCode (JsFin q) c) eqn:E;
      [ repeat match goal with
        | |- context [isCode (JsFin q) ?c'] =>
            rewrite (isCode_unique q c c' E) by discriminate
        end
      | ]
  end;
    cbn [orb]; (split; [intros H; try discriminate H; cbn; tauto|]);
    intros H; try reflexivity;
    repeat (destruct H as [H|H]; try discriminate H); try contradiction.
Qed.

(** X15. The address of a file. The file identifier is one segment of the
    address: what [encodeURIComponent] writes for it holds no slash, no
    question mark and no hash; and, for one transaction, two file
    identifiers with the same address are the same identifier. *)
Theorem file_id_is_one_segment transactionId fileId :
  has_char "/" (encodeURIComponent fileId) = false
  /\ has_char "?" (encodeURIComponent fileId) = false
  /\ has_char "#" (encodeURIComponent fileId) = false
  /\ forall fileId',
       fileUrl this transactionId fileId = fileUrl this transactionId fileId' ->
       fileId = fileId'.
Proof.
  repeat split.
  1-3: induction fileId as [|c s IH]; [reflexivity|];
       rewrite encodeURIComponent_cons, has_char_append, IH;
       now rewrite (proj1 (encodeChar_safe c)) ||
           now rewrite (proj1 (proj2 (encodeChar_safe c))) ||
           now rewrite (proj2 (proj2 (encodeChar_safe c))).
  intros fileId' E. unfold fileUrl in E.
  repeat apply append_inv_head in E.
  rewrite <- (decodePercent_encodeURIComponent fileId),
    <- (decodePercent_encodeURIComponent fileId').
  now rewrite E.
Qed.

End SignhostProperties.

(** X16. The anchor of the demonstration. The search text that [main] gives to
    [uploadFileMetadata] for the signature field occurs exactly once in
    the texts of the document that [main] generates, whoever the signer
    is, when no string field of the contract data holds it. *)
Theorem demo_search_text_drawn_once canvas data signerId :
  dataFreeOf clientMarker data ->
  let this := newContractPdfBuilder data Demo.pdfOptions in
  let body := Signhost.uploadFileMetadataBody signerId Demo.displayName
                (Some Demo.signatureLocation) in
  exists search,
    Signhost.searchOf body = Signhost.VString search
    /\ tokenCount search (ops (draw canvas this)) = 1.
Proof.
  intros Hfree. cbv zeta. exists clientMarker. split; [reflexivity|].
  rewrite tokenCount_draw; [reflexivity|now left|exact Hfree].
Qed.

(* ====================================================================== *)
(** * Facts on the demonstration script *)
(* ====================================================================== *)

(** Unfolding of the pieces of the script. *)
Ltac script :=
  cbv beta iota zeta delta
    [Demo.bind Demo.tryCatch Demo.await Demo.call Demo.awaitPdf Demo.exit
     Demo.ret Demo.throw fst snd];
  cbn [app].

(** A call found in a list of calls that is written out. *)
Ltac found H :=
  cbn [In app] in H;
  repeat (destruct H as [H|H]; [try discriminate H|]);
  try contradiction.

Lemma statusCalls_not (a : Demo.Action) t :
  Forall (fun c => Demo.isStatusCall c = true) t ->
  Demo.isStatusCall a = false -> ~ In a t.
Proof.
  intros Ht Ha Hin. rewrite Forall_forall in Ht.
  specialize (Ht a Hin). congruence.
Qed.

Lemma statusCalls_no_exit t :
  Forall (fun c => Demo.isStatusCall c = true) t ->
  Forall (fun c => Demo.isExit c = false) t.
Proof.
  apply Forall_impl. intros [] H; try reflexivity; discriminate H.
Qed.

Section ScriptFacts.

Variable canvas : Canvas.
Variable document : list Op -> Run.
Variable world : Demo.World.
Variable CONFIG : Demo.Config.
Variable SAMPLE_CONTRACT : ContractData.
Variable SAMPLE_SIGNER : Demo.Signer.

(** The check of the status: it asks for the transaction, makes calls of
    its own only, does not throw, and downloads when the transaction is
    signed only. *)
Lemma checkTransactionStatus_cases transactionId :
  exists t s,
    Demo.checkTransactionStatus world CONFIG SAMPLE_CONTRACT transactionId
    = (Demo.GetTransaction transactionId :: t, s)
    /\ (forall error, s <> Demo.Throws error)
    /\ Forall (fun c => Demo.isStatusCall c = true) t
    /\ forall id file,
         In (Demo.DownloadDocument id file) t ->
         id = transactionId /\ file = Demo.fileId
         /\ exists status,
              Demo.getTransaction world transactionId = Demo.Resolved status
              /\ Signhost.isCode (Signhost.Status status) Signhost.SIGNED = true.
Proof.
  unfold Demo.checkTransactionStatus. script.
  destruct (Demo.getTransaction world transactionId) as [status|error|] eqn:Hg;
    script;
    [destruct (Signhost.isCode (Signhost.Status status) Signhost.SIGNED) eqn:Hs;
     script;
     [destruct (Demo.downloadDocument world transactionId "contract.pdf")
        as [signedPdf|?|]; script;
      [destruct (Demo.writeFileSync world _ signedPdf); script;
       [destruct (Demo.downloadReceipt world transactionId) as [receipt|?|];
        script; [destruct (Demo.writeFileSync world _ receipt); script| |]|]
      | |]
     |]
    | |];
    do 2 eexists; (split; [reflexivity|]);
    (split; [intros ?; discriminate|]);
    (split; [repeat constructor|]);
    intros id file H; found H;
    injection H as <- <-; repeat split; eauto.
Qed.

(** The steps of the signing: no exit; a start is preceded by the
    transaction, the place of the signature and the upload, and followed
    by no exception when it succeeds; a download belongs to the
    transaction created and to the file uploaded. *)
Lemma signingSteps_cases pdfBuffer :
  exists t s,
    Demo.signingSteps world CONFIG SAMPLE_CONTRACT SAMPLE_SIGNER pdfBuffer = (t, s)
    /\ Forall (fun c => Demo.isExit c = false) t
    /\ (forall transactionId,
          In (Demo.StartTransaction transactionId) t ->
          exists transaction signer others rest,
            Demo.createTransaction world
              (Demo.transactionInput CONFIG SAMPLE_CONTRACT SAMPLE_SIGNER)
            = Demo.Resolved transaction
            /\ Signhost.Signers transaction = signer :: others
            /\ transactionId = Signhost.Id transaction
            /\ t = [ Demo.CreateTransaction
                       (Demo.transactionInput CONFIG SAMPLE_CONTRACT SAMPLE_SIGNER);
                     Demo.UploadFileMetadata transactionId Demo.fileId
                       (Signhost.SignerId signer) Demo.displayName
                       (Some Demo.signatureLocation);
                     Demo.UploadFile transactionId Demo.fileId pdfBuffer;
                     Demo.StartTransaction transactionId ] ++ rest
            /\ forall started,
                 Demo.startTransaction world transactionId = Demo.Resolved started ->
                 forall error, s <> Demo.Throws error)
    /\ (forall transactionId file,
          In (Demo.DownloadDocument transactionId file) t ->
          file = Demo.fileId
          /\ exists transaction status,
               Demo.createTransaction world
                 (Demo.transactionInput CONFIG SAMPLE_CONTRACT SAMPLE_SIGNER)
               = Demo.Resolved transaction
               /\ transactionId = Signhost.Id transaction
               /\ In (Demo.UploadFile transactionId file pdfBuffer) t
               /\ Demo.getTransaction world transactionId = Demo.Resolved status
               /\ Signhost.isCode (Signhost.Status status) Signhost.SIGNED = true).
Proof.
  unfold Demo.signingSteps, Demo.firstSigner. script.
  destruct (Demo.createTransaction world _) as [transaction|?|] eqn:Hc; script;
    [destruct (Signhost.Signers transaction) as [|signer others] eqn:Hs; script;
     [|destruct (Demo.uploadFileMetadata world _ _ _ _ _) as [?|?|]; script;
       [destruct (Demo.uploadFile world _ _ _) as [?|?|]; script;
        [destruct (Demo.startTransaction world _) as [?|?|] eqn:Hst; script;
         [destruct (checkTransactionStatus_cases (Signhost.Id transaction))
            as (t & s & -> & Hthrow & Hcalls & Hdown)| |]
        | |]
       | |]]
    | |].
  all: do 2 eexists; (split; [reflexivity|]).
  all: split;
    [ repeat (constructor; [reflexivity|]);
      first [apply Forall_nil | now apply statusCalls_no_exit]
    | ].
  all: split; [intros id H; found H|intros id file H; found H].
  all: match goal with
       | H : In (Demo.StartTransaction _) _ |- _ =>
           exfalso; revert H; now apply statusCalls_not
       | H : In (Demo.DownloadDocument _ _) _ |- _ =>
           destruct (Hdown _ _ H) as (-> & -> & status & Hg & Hi);
           (split; [reflexivity|]); exists transaction, status;
           repeat split; auto; cbn [In]; auto
       | H : Demo.StartTransaction _ = Demo.StartTransaction _ |- _ =>
           injection H as <-; exists transaction, signer, others; eexists;
           repeat split; eauto;
           first [ intros started _; exact Hthrow
                 | intros started Hr; congruence ]
       end.
Qed.

End ScriptFacts.

(** The answers that [main] depends on, in the order asked. *)
Ltac main_answers :=
  unfold Demo.main, Demo.ensureOutputDir;
  repeat
    (script;
     match goal with
     | |- context [if negb (Demo.DEMO_MODE ?c) && ?k then _ else _] =>
         destruct (negb (Demo.DEMO_MODE c) && k) eqn:?
     | |- context [match generateContractPdf ?a ?b ?c ?d with _ => _ end] =>
         destruct (generateContractPdf a b c d) eqn:?
     | |- context [if negb (Demo.existsSync ?w ?p) then _ else _] =>
         destruct (Demo.existsSync w p) eqn:?; cbn [negb]
     | |- context [match Demo.mkdirSync ?w ?p with _ => _ end] =>
         destruct (Demo.mkdirSync w p) as [[]|?] eqn:?
     | |- context [match Demo.writeFileSync ?w ?p ?b with _ => _ end] =>
         destruct (Demo.writeFileSync w p b) as [[]|?] eqn:?
     | |- context [if Demo.DEMO_MODE ?c then _ else _] =>
         destruct (Demo.DEMO_MODE c) eqn:?
     | |- context [Demo.signingSteps ?w ?c ?sc ?ss ?b] =>
         let t := fresh "t" in
         let s := fresh "s" in
         let Hexit := fresh "Hexit" in
         let Hstart := fresh "Hstart" in
         let Hdown := fresh "Hdown" in
         destruct (signingSteps_cases w c sc ss b)
           as (t & s & -> & Hexit & Hstart & Hdown);
         destruct s
     end);
  script.

(* ====================================================================== *)
(** * Properties of the demonstration script *)
(* ====================================================================== *)

Section ScriptProperties.

Variable canvas : Canvas.
Variable document : list Op -> Run.
Variable world : Demo.World.
Variable CONFIG : Demo.Config.
Variable SAMPLE_CONTRACT : ContractData.
Variable SAMPLE_SIGNER : Demo.Signer.

Let run : Demo.M unit :=
  Demo.main canvas document world CONFIG SAMPLE_CONTRACT SAMPLE_SIGNER.

Let localPdfPath : string :=
  Demo.pathJoin world (Demo.OUTPUT_DIR CONFIG)
    (contractNumber SAMPLE_CONTRACT ++ ".pdf").


(** X18. The order of the calls. When [main] starts a transaction, the calls
    that precede the start are, in this order: the PDF written to the
    output directory, the transaction created, the place of the signature
    set for the file [contract.pdf] and the first signer of the
    transaction created, and the PDF uploaded under the same file
    identifier; the buffer written and the buffer uploaded are the one
    that [generateContractPdf] was fulfilled with, and the three calls
    name the transaction that [createTransaction] answered. *)
Theorem start_follows_the_uploads transactionId :
  In (Demo.StartTransaction transactionId) (fst run) ->
  exists buffer transaction signer others dirs rest,
    generateContractPdf canvas document SAMPLE_CONTRACT Demo.pdfOptions
    = Fulfilled buffer
    /\ Demo.createTransaction world
         (Demo.transactionInput CONFIG SAMPLE_CONTRACT SAMPLE_SIGNER)
       = Demo.Resolved transaction
    /\ Signhost.Signers transaction = signer :: others
    /\ transactionId = Signhost.Id transaction
    /\ fst run
       = dirs
         ++ [ Demo.WriteFileSync localPdfPath buffer;
              Demo.CreateTransaction
                (Demo.transactionInput CONFIG SAMPLE_CONTRACT SAMPLE_SIGNER);
              Demo.UploadFileMetadata transactionId Demo.fileId
                (Signhost.SignerId signer) Demo.displayName
                (Some Demo.signatureLocation);
              Demo.UploadFile transactionId Demo.fileId buffer;
              Demo.StartTransaction transactionId ]
         ++ rest
    /\ (dirs = [] \/ dirs = [Demo.MkdirSync (Demo.OUTPUT_DIR CONFIG)]).
Proof.
  subst run localPdfPath.
  main_answers; intros H; found H;
    try (apply in_app_or in H; destruct H as [H|H]; [|found H]);
    match goal with
    | Hs : forall id, In (Demo.StartTransaction id) ?t -> _,
      Hp : generateContractPdf _ _ _ _ = Fulfilled ?b |- _ =>
        destruct (Hs _ H) as (transaction & signer & others & rest & Hc & Hg & -> & -> & _);
        exists b, transaction, signer, others
    end;
    first
      [ exists []; eexists; repeat split; eauto; cbn [app];
        rewrite <- ?app_assoc; reflexivity
      | exists [Demo.MkdirSync (Demo.OUTPUT_DIR CONFIG)]; eexists;
        repeat split; eauto; cbn [app]; rewrite <- ?app_assoc; reflexivity ].
Qed.

(** X19. How [main] ends. It never ends in an exception. A call of
    [process.exit] is its last call, with code 1. Once the start of the
    transaction has succeeded, it does not exit: what the check of the
    status and the downloads throw is caught. *)
Theorem main_exits_last_with_code_one :
  (forall error, snd run <> Demo.Throws error)
  /\ (forall code, In (Demo.Exit code) (fst run) ->
        code = 1 /\ snd run = Demo.Halts
        /\ exists before,
             fst run = before ++ [Demo.Exit 1]
             /\ Forall (fun a => Demo.isExit a = false) before)
  /\ (forall transactionId started,
        In (Demo.StartTransaction transactionId) (fst run) ->
        Demo.startTransaction world transactionId = Demo.Resolved started ->
        Forall (fun a => Demo.isExit a = false) (fst run)).
Proof.
  subst run. split; [|split].
  - intros error. main_answers; discriminate.
  - intros code. main_answers; intros H; found H;
      try (apply in_app_or in H; destruct H as [H|H]; [|found H]);
      try (exfalso; rewrite Forall_forall in Hexit;
           specialize (Hexit _ H); discriminate Hexit);
      injection H as <-; (split; [reflexivity|]); (split; [reflexivity|]);
      match goal with
      | |- exists before, [_] = _ /\ _ => exists []
      | |- exists before, [?a; _] = _ /\ _ => exists [a]
      | |- exists before, [?a; ?b; _] = _ /\ _ => exists [a; b]
      | |- exists before, ?a :: ?t ++ [_] = _ /\ _ => exists (a :: t)
      | |- exists before, ?a :: ?b :: ?t ++ [_] = _ /\ _ => exists (a :: b :: t)
      end;
      (split; [reflexivity|]);
      repeat (constructor; [reflexivity|]);
      first [apply Forall_nil | exact Hexit].
  - intros transactionId started.
    main_answers; intros H Hs; found H;
      try (apply in_app_or in H; destruct H as [H|H]; [|found H]);
      try (match goal with
           | Hstart : forall id, In (Demo.StartTransaction id) ?t -> _ |- _ =>
               destruct (Hstart _ H) as (? & ? & ? & ? & _ & _ & _ & _ & Hno);
               exfalso; exact (Hno _ Hs _ eq_refl)
           end);
      repeat (constructor; [reflexivity|]);
      rewrite ?app_nil_r; exact Hexit.
Qed.


End ScriptProperties.

(* ====================================================================== *)
(** * Further instances and examples *)
(* ====================================================================== *)

(** The minimal contract: one page is added on the plain canvas, before
    the signature block; eight are added on a canvas whose texts are a
    thousand points high. *)
Example minimal_contract_pages :
  pageBreaks (ops (draw plainCanvas (minimalBuilder (JsFin 1)))) = 1
  /\ pageBreaks (ops (draw tallCanvas (minimalBuilder (JsFin 1)))) = 8
  /\ length (texts (ops (draw plainCanvas (minimalBuilder (JsFin 1))))) = 58.
Proof. repeat split; vm_compute; reflexivity. Qed.

(** A run that ends and then signals a chunk and an error: the promise
    keeps the chunk received before the end. *)
Lemma build_fulfils_with_chunks_witness :
  thrown (failsAfterCompletion (ops (draw plainCanvas (minimalBuilder (JsFin 1)))))
  = None
  /\ quiet [EvData [b1]] = true
  /\ build plainCanvas failsAfterCompletion (minimalBuilder (JsFin 1))
     = Fulfilled [b1].
Proof.
  split; [reflexivity|]. split; [reflexivity|].
  exact (build_fulfils_with_chunks plainCanvas failsAfterCompletion
           (minimalBuilder (JsFin 1)) [EvData [b1]]
           [EvData [b2]; EvError "write after end"] eq_refl eq_refl eq_refl).
Defined.

(** A document that signals chunks and nothing else leaves the promise
    pending; an error before the end is the reason of the rejection. *)
Example build_stalls_and_rejects :
  build plainCanvas stalls (minimalBuilder (JsFin 1)) = Pending
  /\ build plainCanvas failsAfterEnd (minimalBuilder (JsFin 1))
     = Rejected "out of memory".
Proof. split; reflexivity. Qed.


Example readAmount_samples :
  readAmount "25.000,00" = 25000000%Z
  /\ readAmount "-1.234.567,891" = (-1234567891)%Z
  /\ readAmount "0,125" = 125%Z
  /\ readAmount (toLocaleString (JsFin (1 # 3))) = 333%Z.
Proof. repeat split; vm_compute; reflexivity. Qed.

(** A checksum in mixed case. *)
Lemma checksum_ignores_letter_case_witness :
  Signhost.isAscii "da39A3EE5e6b4b0d3255bfef95601890AFD80709" = true
  /\ Signhost.validatePostbackChecksum Signhost.examplePlatform
       Signhost.exampleService "b10ae331" (JsFin 30)
       (toUpperCase "da39A3EE5e6b4b0d3255bfef95601890AFD80709")
     = Signhost.validatePostbackChecksum Signhost.examplePlatform
         Signhost.exampleService "b10ae331" (JsFin 30)
         "da39A3EE5e6b4b0d3255bfef95601890AFD80709".
Proof.
  split; [reflexivity|].
  exact (proj1 (checksum_ignores_letter_case Signhost.examplePlatform
                  Signhost.exampleService "b10ae331" (JsFin 30)
                  "da39A3EE5e6b4b0d3255bfef95601890AFD80709" eq_refl)).
Defined.

Lemma checksum_data_identifies_postback_witness :
  has_char "|" "30" = false
  /\ Signhost.checksumData Signhost.exampleService "b10ae331" "30"
     = "b10ae331||30|s3cret"
  /\ ("b10ae331" = "b10ae331" /\ "30" = "30")%string.
Proof.
  split; [reflexivity|]. split; [reflexivity|].
  exact (checksum_data_identifies_postback Signhost.exampleService
           "b10ae331" "b10ae331" "30" "30" eq_refl eq_refl eq_refl).
Defined.

(** With a bar in the text of the status, two postbacks share the text
    under the checksum. *)
Example checksum_data_needs_plain_status :
  Signhost.checksumData Signhost.exampleService "a" "1||2"
  = Signhost.checksumData Signhost.exampleService "a||1" "2".
Proof. reflexivity. Qed.

Lemma parsePostback_returns_validated_witness :
  Signhost.parsePostback Signhost.examplePlatform Signhost.exampleService
    signedPostback
  = Signhost.Returned (Some signedPostback)
  /\ Signhost.truthy (Signhost.getProp signedPostback "Id") = true.
Proof.
  split; [reflexivity|].
  exact (proj1 (proj2 (parsePostback_returns_validated Signhost.examplePlatform
                         Signhost.exampleService signedPostback signedPostback
                         eq_refl))).
Defined.

Lemma parsePostback_on_typed_postback_witness :
  Signhost.getProp signedPostback "Checksum"
  = Signhost.VString "DA39A3EE5E6B4B0D3255BFEF95601890AFD80709"
  /\ Signhost.parsePostback Signhost.examplePlatform Signhost.exampleService
       signedPostback
     = Signhost.Returned (Some signedPostback).
Proof.
  split; [reflexivity|].
  exact (parsePostback_on_typed_postback Signhost.examplePlatform
           Signhost.exampleService
           [ ("Id", Signhost.VString "b10ae331-af78-4e79-a39e-5b64693b6b68");
             ("Status", Signhost.VNumber (JsFin 30));
             ("Checksum",
              Signhost.VString "DA39A3EE5E6B4B0D3255BFEF95601890AFD80709") ]
           "b10ae331-af78-4e79-a39e-5b64693b6b68" (JsFin 30)
           "DA39A3EE5E6B4B0D3255BFEF95601890AFD80709" eq_refl eq_refl eq_refl).
Defined.

(** An array and an object without checksum. *)
Lemma parsePostback_null_on_incomplete_body_witness :
  Signhost.parsePostback Signhost.examplePlatform Signhost.exampleService
    (Signhost.VArray [Signhost.VString "b10ae331"]) = Signhost.Returned None
  /\ Signhost.parsePostback Signhost.examplePlatform Signhost.exampleService
       (Signhost.VObject [ ("Id", Signhost.VString "b10ae331");
                           ("Status", Signhost.VNumber (JsFin 30)) ])
     = Signhost.Returned None.
Proof.
  split.
  - apply (parsePostback_null_on_incomplete_body Signhost.examplePlatform
             Signhost.exampleService (Signhost.VArray [Signhost.VString "b10ae331"])).
    left. intros fields H. discriminate H.
  - apply (parsePostback_null_on_incomplete_body Signhost.examplePlatform
             Signhost.exampleService
             (Signhost.VObject [ ("Id", Signhost.VString "b10ae331");
                                 ("Status", Signhost.VNumber (JsFin 30)) ])).
    right. right. right. reflexivity.
Defined.

Lemma parsePostback_throws_on_checksum_of_other_type_witness :
  Signhost.truthy (Signhost.VNumber (JsFin 1)) = true
  /\ Signhost.parsePostback Signhost.examplePlatform Signhost.exampleService
       numericChecksumPostback
     = Signhost.Threw Signhost.typeError.
Proof.
  split; [reflexivity|].
  apply (parsePostback_throws_on_checksum_of_other_type Signhost.examplePlatform
           Signhost.exampleService
           [ ("Id", Signhost.VString "b10ae331-af78-4e79-a39e-5b64693b6b68");
             ("Status", Signhost.VNumber (JsFin 30));
             ("Checksum", Signhost.VNumber (JsFin 1)) ]
           (JsFin 30) (Signhost.VNumber (JsFin 1))); try reflexivity.
  intros received H. discriminate H.
Defined.

Example status_labels :
  Signhost.getStatusLabel Signhost.examplePlatform (JsFin 30) = "Signed"
  /\ Signhost.getStatusLabel Signhost.examplePlatform (JsFin (60 # 2)) = "Signed"
  /\ Signhost.getStatusLabel Signhost.examplePlatform (JsFin 20) = "In Progress"
  /\ Signhost.getStatusLabel Signhost.examplePlatform (JsFin 35) = "Unknown (35)"
  /\ Signhost.isTransactionComplete (JsFin 30) = true
  /\ Signhost.isTransactionComplete (JsFin 20) = false
  /\ Signhost.isTransactionComplete (JsFin 35) = false
  /\ Signhost.isTransactionComplete JsNaN = false.
Proof. repeat split; vm_compute; reflexivity. Qed.

Example file_addresses :
  Signhost.fileUrl Signhost.exampleService "b10ae331" Demo.fileId
  = "https://api.signhost.com/api/transaction/b10ae331/file/contract.pdf"
  /\ Signhost.encodeURIComponent "a/b c?.pdf" = "a%2Fb%20c%3F.pdf"
  /\ Signhost.decodePercent "a%2Fb%20c%3F.pdf" = "a/b c?.pdf".
Proof. repeat split; vm_compute; reflexivity. Qed.

(** The minimal contract, drawn as [main] draws it. *)
Lemma demo_search_text_drawn_once_witness :
  dataFreeOf clientMarker (minimalData (JsFin 25000))
  /\ exists search,
       Signhost.searchOf
         (Signhost.uploadFileMetadataBody "signer-1" Demo.displayName
            (Some Demo.signatureLocation))
       = Signhost.VString search
       /\ tokenCount search
            (ops (draw plainCanvas
                    (newContractPdfBuilder (minimalData (JsFin 25000))
                       Demo.pdfOptions))) = 1.
Proof.
  assert (H : dataFreeOf clientMarker (minimalData (JsFin 25000)))
    by (apply minimalData_free; reflexivity).
  split; [exact H|].
  exact (demo_search_text_drawn_once plainCanvas (minimalData (JsFin 25000))
           "signer-1" H).
Defined.

(** The script in demo mode, and with the service. *)
Example demo_runs :
  Demo.main plainCanvas completes Demo.agreeableWorld Demo.demoConfig
    (minimalData (JsFin 25000)) Demo.sampleSigner
  = ([ Demo.MkdirSync "./output";
       Demo.WriteFileSync "./output/X.pdf" [b1; b2] ],
     Demo.Continues tt)
  /\ Demo.main plainCanvas completes Demo.agreeableWorld Demo.liveConfig
       (minimalData (JsFin 25000)) Demo.sampleSigner
     = ([ Demo.MkdirSync "./output";
          Demo.WriteFileSync "./output/X.pdf" [b1; b2];
          Demo.CreateTransaction
            (Demo.transactionInput Demo.liveConfig (minimalData (JsFin 25000))
               Demo.sampleSigner);
          Demo.UploadFileMetadata "b10ae331" "contract.pdf" "signer-1"
            "Service Agreement" (Some Demo.signatureLocation);
          Demo.UploadFile "b10ae331" "contract.pdf" [b1; b2];
          Demo.StartTransaction "b10ae331";
          Demo.Sleep 5000;
          Demo.GetTransaction "b10ae331";
          Demo.DownloadDocument "b10ae331" "contract.pdf";
          Demo.WriteFileSync "./output/X-SIGNED.pdf" [b2];
          Demo.DownloadReceipt "b10ae331";
          Demo.WriteFileSync "./output/X-RECEIPT.pdf" [b1] ],
        Demo.Continues tt)
  /\ Demo.main plainCanvas completes Demo.uploadFailingWorld Demo.liveConfig
       (minimalData (JsFin 25000)) Demo.sampleSigner
     = ([ Demo.MkdirSync "./output";
          Demo.WriteFileSync "./output/X.pdf" [b1; b2];
          Demo.CreateTransaction
            (Demo.transactionInput Demo.liveConfig (minimalData (JsFin 25000))
               Demo.sampleSigner);
          Demo.UploadFileMetadata "b10ae331" "contract.pdf" "signer-1"
            "Service Agreement" (Some Demo.signatureLocation);
          Demo.UploadFile "b10ae331" "contract.pdf" [b1; b2];
          Demo.Exit 1 ],
        Demo.Halts)
  /\ Demo.main plainCanvas stalls Demo.agreeableWorld Demo.liveConfig
       (minimalData (JsFin 25000)) Demo.sampleSigner
     = ([], Demo.Halts).
Proof. repeat split; vm_compute; reflexivity. Qed.


Lemma start_follows_the_uploads_witness :
  In (Demo.StartTransaction "b10ae331")
    (fst (Demo.main plainCanvas completes Demo.agreeableWorld Demo.liveConfig
            (minimalData (JsFin 25000)) Demo.sampleSigner))
  /\ exists buffer transaction,
       generateContractPdf plainCanvas completes (minimalData (JsFin 25000))
         Demo.pdfOptions = Fulfilled buffer
       /\ Demo.createTransaction Demo.agreeableWorld
            (Demo.transactionInput Demo.liveConfig (minimalData (JsFin 25000))
               Demo.sampleSigner)
          = Demo.Resolved transaction
       /\ "b10ae331" = Signhost.Id transaction.
Proof.
  assert (H : In (Demo.StartTransaction "b10ae331")
                (fst (Demo.main plainCanvas completes Demo.agreeableWorld
                        Demo.liveConfig (minimalData (JsFin 25000))
                        Demo.sampleSigner))).
  { vm_compute. do 5 right. left. reflexivity. }
  split; [exact H|].
  destruct (start_follows_the_uploads plainCanvas completes Demo.agreeableWorld
              Demo.liveConfig (minimalData (JsFin 25000)) Demo.sampleSigner
              "b10ae331" H)
    as (buffer & transaction & _ & _ & _ & _ & Hp & Hc & _ & Hi & _).
  exists buffer, transaction. auto.
Defined.

